(** * kconf: a library of kubeconfig symlinks

    A shallow embedding of [main.go] and a verification of its behaviour.

    Layout of the development:
    - the Go library functions the program calls ([strings], [strconv],
      [path], [filepath], [fmt], [flag], [os], [ioutil]), each in a module
      named after its Go package, modelled after the Go sources;
    - the program itself, function by function, under the names it has in
      [main.go];
    - the theorems.

    Go strings are byte sequences: they are [string]s here, whose characters
    are the 256 [ascii] values.  A Go [int] is 64 bits wide; it is a [Z] and
    every place where the width matters is written out. *)

From Stdlib Require Import ZArith Lia Ascii String List Sorting.Sorted DecimalString.
From stdpp Require Import base option list sorting strings gmap.

Local Open Scope Z_scope.

(** ** Bytes and strings *)

Definition byte_of (n : nat) : ascii := ascii_of_nat n.
Definition code (c : ascii) : Z := Z.of_nat (nat_of_ascii c).

Definition bytes (l : list nat) : string :=
  string_of_list_ascii (map byte_of l).

Definition chars (s : string) : list ascii := list_ascii_of_string s.
Definition unchars (l : list ascii) : string := string_of_list_ascii l.

(** [len(s)] of a Go string, as an [int]. *)
Definition strlen (s : string) : Z := Z.of_nat (String.length s).

(** Whether the byte list [l] starts with [p]. *)
Definition list_prefixb (p l : list ascii) : bool :=
  bool_decide (take (length p) l = p).

(** ** Package strings *)

Module strings.

(** The encodings, in UTF-8, of the code points for which [unicode.IsSpace]
    holds: tab, line feed, vertical tab, form feed, carriage return, space,
    U+0085, U+00A0, U+1680, U+2000 to U+200A, U+2028, U+2029, U+202F, U+205F
    and U+3000.  Decoding the first (or the last) rune of a string yields one
    of these code points exactly when the string starts (or ends) with the
    corresponding byte sequence. *)
Definition whiteSpace : list (list ascii) :=
  map (map byte_of)
    [ [9]; [10]; [11]; [12]; [13]; [32];
      [194; 133]; [194; 160];
      [225; 154; 128];
      [226; 128; 128]; [226; 128; 129]; [226; 128; 130]; [226; 128; 131];
      [226; 128; 132]; [226; 128; 133]; [226; 128; 134]; [226; 128; 135];
      [226; 128; 136]; [226; 128; 137]; [226; 128; 138];
      [226; 128; 168]; [226; 128; 169]; [226; 128; 175];
      [226; 129; 159];
      [227; 128; 128] ]%nat.

(** One step of [TrimLeftFunc]: the input without its first rune when that
    rune is in [set]. *)
Definition dropRune (set : list (list ascii)) (l : list ascii) : option (list ascii) :=
  match List.find (fun w => list_prefixb w l) set with
  | Some w => Some (drop (length w) l)
  | None => None
  end.

Fixpoint trimLeft (set : list (list ascii)) (fuel : nat) (l : list ascii) : list ascii :=
  match fuel with
  | O => l
  | S fuel' =>
      match dropRune set l with
      | Some l' => trimLeft set fuel' l'
      | None => l
      end
  end.

(** [strings.TrimSpace]: leading and trailing white space removed.  The right
    end is trimmed on the reversed byte sequence.  Every step removes at least
    one byte, so [length l] steps suffice. *)
Definition TrimSpace (s : string) : string :=
  let l := chars s in
  let l1 := trimLeft whiteSpace (length l) l in
  let r := rev l1 in
  unchars (rev (trimLeft (map (@rev ascii) whiteSpace) (length r) r)).

Definition HasPrefix (s prefix : string) : bool := String.prefix prefix s.

(** The pieces of [s] between occurrences of [sep], scanning from the left:
    the first piece and the list of the later ones.  [skip] counts the bytes
    of a separator still to be passed over. *)
Fixpoint splitFrom (sep s : string) (skip : nat) : string * list string :=
  match s with
  | EmptyString => (EmptyString, [])
  | String c s' =>
      match skip with
      | S k => splitFrom sep s' k
      | O =>
          if String.prefix sep s
          then (EmptyString,
                let '(p, ps) := splitFrom sep s' (String.length sep - 1) in p :: ps)
          else let '(p, ps) := splitFrom sep s' O in (String c p, ps)
      end
  end.

(** [strings.Split(s, sep)] for a non-empty separator, which is the only way
    the program calls it.  (With an empty separator Go splits after each UTF-8
    sequence; that case is given here byte by byte.) *)
Definition Split (s sep : string) : list string :=
  match sep with
  | EmptyString => map (fun c => String c EmptyString) (chars s)
  | _ => let '(p, ps) := splitFrom sep s O in p :: ps
  end.

End strings.

(** ** Package strconv *)

Module strconv.

Inductive Err := ErrSyntax | ErrRange.

(** [*strconv.NumError] *)
Record NumError := { Func : string; Num : string; Err_ : Err }.

Definition isDigit (c : ascii) : bool := (48 <=? code c) && (code c <=? 57).

Definition maxUint64 : Z := 2 ^ 64 - 1.

(** The digit loop of [ParseUint(s, 10, 64)]: [cutoff] is the smallest
    number whose tenfold overflows; the sum is taken modulo [2^64] as the
    [uint64] addition does. *)
Fixpoint parseUintLoop (s : list ascii) (n : Z) : Z * option Err :=
  match s with
  | [] => (n, None)
  | c :: rest =>
      if isDigit c then
        let d := code c - 48 in
        let cutoff := maxUint64 / 10 + 1 in
        if cutoff <=? n then (maxUint64, Some ErrRange)
        else
          let n := n * 10 in
          let n1 := (n + d) mod 2 ^ 64 in
          if (n1 <? n) || (maxUint64 <? n1) then (maxUint64, Some ErrRange)
          else parseUintLoop rest n1
      else (0, Some ErrSyntax)
  end.

Definition ParseUint (s : list ascii) : Z * option Err :=
  match s with
  | [] => (0, Some ErrSyntax)
  | _ => parseUintLoop s 0
  end.

(** [ParseInt(s, 10, 0)]: an optional sign, then [ParseUint]; the result is
    clamped to the [int64] range with [ErrRange]. *)
Definition ParseInt (s : list ascii) : Z * option Err :=
  match s with
  | [] => (0, Some ErrSyntax)
  | c :: rest =>
      let neg := bool_decide (c = "-"%char) in
      let s := if bool_decide (c = "+"%char) || neg then rest else s in
      let '(un, err) := ParseUint s in
      match err with
      | Some ErrSyntax => (0, err)
      | _ =>
          let cutoff := 2 ^ 63 in
          if negb neg && (cutoff <=? un) then (cutoff - 1, Some ErrRange)
          else if neg && (cutoff <? un) then (- cutoff, Some ErrRange)
          else (if neg then - un else un, None)
      end
  end.

(** The fast path of [Atoi], for strings of 1 to 18 bytes: no overflow is
    possible, so the digits are accumulated unchecked. *)
Fixpoint atoiFast (s : list ascii) (n : Z) : option Z :=
  match s with
  | [] => Some n
  | ch :: rest => if isDigit ch then atoiFast rest (n * 10 + (code ch - 48)) else None
  end.

(** [strconv.Atoi]: the value and the error ([None] is Go's [nil]). *)
Definition Atoi (s : string) : Z * option NumError :=
  let syntaxError := Some {| Func := "Atoi"; Num := s; Err_ := ErrSyntax |} in
  let l := chars s in
  let sLen := length l in
  if bool_decide (0 < sLen < 19)%nat then
    match l with
    | [] => (0, syntaxError)
    | c0 :: rest =>
        let signed := bool_decide (c0 = "-"%char) || bool_decide (c0 = "+"%char) in
        let digits := if signed then rest else l in
        if signed && bool_decide (length digits < 1)%nat then (0, syntaxError)
        else
          match atoiFast digits 0 with
          | None => (0, syntaxError)
          | Some n => (if bool_decide (c0 = "-"%char) then - n else n, None)
          end
    end
  else
    let '(i64, err) := ParseInt l in
    (i64, (fun e => {| Func := "Atoi"; Num := s; Err_ := e |}) <$> err).

Definition ParseBool (str : string) : option bool :=
  if bool_decide (str ∈ ["1"; "t"; "T"; "TRUE"; "true"; "True"]) then Some true
  else if bool_decide (str ∈ ["0"; "f"; "F"; "FALSE"; "false"; "False"]) then Some false
  else None.

(** [strconv.Itoa] *)
Definition Itoa (i : Z) : string := NilZero.string_of_int (Z.to_int i).

Definition hexDigit (n : Z) : ascii :=
  byte_of (Z.to_nat (if n <? 10 then 48 + n else 87 + n)).

Definition quoteChar : ascii := byte_of 34.
Definition backslash : ascii := byte_of 92.

(** [utf8.DecodeRuneInString] at the head of [l]: the code point and the
    number of bytes of its encoding.  [None] stands for [RuneError] with
    width 1, which Go returns where no encoding starts: a byte that cannot
    begin one, an encoding cut short, one longer than needed, a surrogate or
    a value above U+10FFFF. *)
Definition DecodeRune (l : list ascii) : option (Z * nat) :=
  let within (lo hi : Z) (c : ascii) := (lo <=? code c) && (code c <=? hi) in
  let low (c : ascii) := code c - 128 in
  match l with
  | [] => None
  | c0 :: rest =>
      let b0 := code c0 in
      if b0 <? 128 then Some (b0, 1%nat)
      else if (194 <=? b0) && (b0 <=? 223) then
        match rest with
        | c1 :: _ =>
            if within 128 191 c1 then Some ((b0 - 192) * 64 + low c1, 2%nat) else None
        | _ => None
        end
      else if (224 <=? b0) && (b0 <=? 239) then
        let lo := if b0 =? 224 then 160 else 128 in
        let hi := if b0 =? 237 then 159 else 191 in
        match rest with
        | c1 :: c2 :: _ =>
            if within lo hi c1 && within 128 191 c2
            then Some ((b0 - 224) * 4096 + low c1 * 64 + low c2, 3%nat) else None
        | _ => None
        end
      else if (240 <=? b0) && (b0 <=? 244) then
        let lo := if b0 =? 240 then 144 else 128 in
        let hi := if b0 =? 244 then 143 else 191 in
        match rest with
        | c1 :: c2 :: c3 :: _ =>
            if within lo hi c1 && within 128 191 c2 && within 128 191 c3
            then Some ((b0 - 240) * 262144 + low c1 * 4096 + low c2 * 64 + low c3, 4%nat)
            else None
        | _ => None
        end
      else None
  end.

(** [strconv.IsPrint].  Up to U+00FF it is Go's test.  Above, Go looks the
    code point up in tables drawn from the Unicode database; the tables are
    not reproduced, and the code points above U+00FF count as printable. *)
Definition IsPrint (r : Z) : bool :=
  if r <=? 255 then
    ((32 <=? r) && (r <? 127)) || ((161 <=? r) && negb (r =? 173))
  else true.

(** [n] hexadecimal digits of [v], the most significant first. *)
Fixpoint hex (n : nat) (v : Z) : string :=
  match n with
  | O => ""
  | S n' => hex n' (v / 16) +:+ String (hexDigit (v mod 16)) ""
  end.

(** [appendEscapedRune] for the double quote: what [Quote] writes for the
    code point [r], whose encoding is [enc]. *)
Definition appendEscapedRune (r : Z) (enc : list ascii) : string :=
  let esc (x : string) := String backslash x in
  if bool_decide (r = 34) then esc (String quoteChar "")
  else if bool_decide (r = 92) then esc (String backslash "")
  else if IsPrint r then unchars enc
  else if bool_decide (r = 7) then esc "a"
  else if bool_decide (r = 8) then esc "b"
  else if bool_decide (r = 12) then esc "f"
  else if bool_decide (r = 10) then esc "n"
  else if bool_decide (r = 13) then esc "r"
  else if bool_decide (r = 9) then esc "t"
  else if bool_decide (r = 11) then esc "v"
  else if (r <? 32) || bool_decide (r = 127) then esc (String "x" (hex 2 r))
  else if r <? 65536 then esc (String "u" (hex 4 r))
  else esc (String "U" (hex 8 r)).

(** The loop of [appendQuotedWith]: a byte where no encoding starts is
    written [\xNN] and the loop goes on with the next byte; [skip] counts the
    bytes of the current encoding still to be passed over. *)
Fixpoint quoteFrom (l : list ascii) (skip : nat) : string :=
  match l with
  | [] => ""
  | c :: rest =>
      match skip with
      | S k => quoteFrom rest k
      | O =>
          match DecodeRune l with
          | None => String backslash (String "x" (hex 2 (code c))) +:+ quoteFrom rest O
          | Some (r, width) => appendEscapedRune r (take width l) +:+ quoteFrom rest (width - 1)
          end
      end
  end.

(** [strconv.Quote] *)
Definition Quote (s : string) : string :=
  String quoteChar (quoteFrom (chars s) O +:+ String quoteChar "").

End strconv.

(** ** Package path *)

Module path.

Definition slash : ascii := "/"%char.

(** The list without its leading slashes. *)
Fixpoint dropSlashes (l : list ascii) : list ascii :=
  match l with
  | c :: l' => if bool_decide (c = slash) then dropSlashes l' else l
  | [] => []
  end.

(** The bytes before the first slash. *)
Fixpoint untilSlash (l : list ascii) : list ascii :=
  match l with
  | c :: l' => if bool_decide (c = slash) then [] else c :: untilSlash l'
  | [] => []
  end.

(** The list from its first slash on. *)
Fixpoint fromSlash (l : list ascii) : list ascii :=
  match l with
  | c :: l' => if bool_decide (c = slash) then l else fromSlash l'
  | [] => []
  end.

(** [path.Base] *)
Definition Base (p : string) : string :=
  match p with
  | EmptyString => "."
  | _ =>
      match rev (untilSlash (dropSlashes (rev (chars p)))) with
      | [] => "/"
      | e => unchars e
      end
  end.

(** One element of the path pushed on the cleaned elements so far (last
    element first). *)
Definition cleanStep (rooted : bool) (out : list string) (elem : string) : list string :=
  if bool_decide (elem = "") || bool_decide (elem = ".") then out
  else if bool_decide (elem = "..") then
    match out with
    | top :: below =>
        if bool_decide (top = "..") then ".." :: out else below
    | [] => if rooted then [] else [".."]
    end
  else elem :: out.

(** [path.Clean], on the elements between slashes. *)
Definition Clean (p : string) : string :=
  match p with
  | EmptyString => "."
  | String c _ =>
      let rooted := bool_decide (c = slash) in
      let out := foldl (cleanStep rooted) [] (strings.Split p "/") in
      let s := (if rooted then "/" else "") +:+ String.concat "/" (rev out) in
      if bool_decide (s = "") then "." else s
  end.

(** [path.Join] *)
Definition Join (elem : list string) : string :=
  match filter (fun e => e ≠ "") elem with
  | [] => ""
  | es => Clean (String.concat "/" es)
  end.

Definition IsAbs (p : string) : bool := strings.HasPrefix p "/".

(** [path.Dir] *)
Definition Dir (p : string) : string :=
  Clean (unchars (rev (fromSlash (rev (chars p))))).

End path.

(** ** Errors *)

Inductive Errno := ENOENT | EEXIST | ENOTDIR | EINVAL | ELOOP | ENOTEMPTY.

(** The concrete error types the program meets.  A Go [error] is an
    interface value that may be [nil]: [None] here. *)
Inductive error_value :=
| errorString (s : string)
| PathError (Op Path : string) (Err : Errno)
| LinkError (Op Old New : string) (Err : Errno)
| SyscallError (Syscall : string) (Err : Errno)
| NumError (e : strconv.NumError).

Definition error := option error_value.

Definition Errno_Error (e : Errno) : string :=
  match e with
  | ENOENT => "no such file or directory"
  | EEXIST => "file exists"
  | ENOTDIR => "not a directory"
  | EINVAL => "invalid argument"
  | ELOOP => "too many levels of symbolic links"
  | ENOTEMPTY => "directory not empty"
  end.

(** The method [Error()] *)
Definition Error (e : error_value) : string :=
  match e with
  | errorString s => s
  | PathError op p e => op +:+ " " +:+ p +:+ ": " +:+ Errno_Error e
  | LinkError op old new e => op +:+ " " +:+ old +:+ " " +:+ new +:+ ": " +:+ Errno_Error e
  | SyscallError call e => call +:+ ": " +:+ Errno_Error e
  | NumError e =>
      "strconv." +:+ strconv.Func e +:+ ": parsing " +:+ strconv.Quote (strconv.Num e) +:+ ": " +:+
      match strconv.Err_ e with
      | strconv.ErrSyntax => "invalid syntax"
      | strconv.ErrRange => "value out of range"
      end
  end.

(** ** The world a process runs in *)

(** What a path of the file system names.  The contents of regular files and
    the permission bits play no part in the program and are left out. *)
Inductive node :=
| RegularFile
| Directory
| Symlink (target : string).

(** The file system maps absolute paths in clean form ([path.Clean]) to nodes.
    Paths are resolved lexically: a relative path is taken from the working
    directory, [x/..] is dropped without a look at [x], and a symbolic link is
    followed only as the last element of a path, never in the middle of one.
    A path that names nothing is reported as missing ([ENOENT]) whatever lies
    above it: the kernel's [ENOTDIR] for a path under a regular file is
    answered only where something is created.  Standard error is not
    modelled. *)
Record World := {
  w_files : gmap string node;
  w_cwd : option string;
  w_env : gmap string string;
  w_args : list string;
  w_stdout : string;
}.

Definition set_files (f : gmap string node) (w : World) : World :=
  {| w_files := f; w_cwd := w_cwd w; w_env := w_env w; w_args := w_args w;
     w_stdout := w_stdout w |}.

Definition set_stdout (out : string) (w : World) : World :=
  {| w_files := w_files w; w_cwd := w_cwd w; w_env := w_env w; w_args := w_args w;
     w_stdout := out |}.

(** Run-time panics of the Go runtime. *)
Inductive panic :=
| IndexOutOfRange (index length : Z)
| SliceBoundsOutOfRange (index length : Z).

(** How a computation ends: it returns, it panics, or it calls [os.Exit]. *)
Inductive exec (A : Type) :=
| Done (a : A)
| Panic (p : panic)
| Exit (code : Z).
Arguments Done {A} a.
Arguments Panic {A} p.
Arguments Exit {A} code.

(** Go code as a function of the world. *)
Definition Go (A : Type) : Type := World -> exec A * World.

#[export] Instance Go_ret : MRet Go := fun A a w => (Done a, w).

#[export] Instance Go_bind : MBind Go := fun A B k m w =>
  match m w with
  | (Done a, w') => k a w'
  | (Panic p, w') => (Panic p, w')
  | (Exit c, w') => (Exit c, w')
  end.

Definition panicWith {A} (p : panic) : Go A := fun w => (Panic p, w).

(** [l[i]] *)
Definition index {A} (l : list A) (i : Z) : Go A :=
  if bool_decide (0 <= i < Z.of_nat (length l)) then
    match l !! Z.to_nat i with
    | Some x => mret x
    | None => panicWith (IndexOutOfRange i (Z.of_nat (length l)))
    end
  else panicWith (IndexOutOfRange i (Z.of_nat (length l))).

(** [l[i:]] *)
Definition sliceFrom {A} (l : list A) (i : Z) : Go (list A) :=
  if bool_decide (0 <= i <= Z.of_nat (length l)) then mret (drop (Z.to_nat i) l)
  else panicWith (SliceBoundsOutOfRange i (Z.of_nat (length l))).

Definition len {A} (l : list A) : Z := Z.of_nat (length l).

(** The line feed that Go writes [\n]. *)
Definition LF : string := String (byte_of 10) "".

(** ** Package io/fs *)

Module fs.

(** [fs.FileMode] is a [uint32]; the type bits are the high ones. *)
Definition ModeDir : Z := Z.shiftl 1 31.
Definition ModeSymlink : Z := Z.shiftl 1 27.

Record FileInfo := { Name : string; Mode : Z }.

Definition IsDir (fi : FileInfo) : bool := negb (Z.land (Mode fi) ModeDir =? 0).

(** The mode [lstat] reports for a node, with the usual permission bits. *)
Definition modeOf (n : node) : Z :=
  match n with
  | RegularFile => 420
  | Directory => Z.lor ModeDir 493
  | Symlink _ => Z.lor ModeSymlink 511
  end.

End fs.

(** ** Package os *)

Module os.

Definition Args : Go (list string) := fun w => (Done (w_args w), w).

Definition Exit {A} (code : Z) : Go A := fun w => (Exit code, w).

(** The key of the file system that a path names. *)
Definition abspath (w : World) (p : string) : option string :=
  if bool_decide (p = "") then None
  else if path.IsAbs p then Some (path.Clean p)
  else d ← w_cwd w; Some (path.Clean (d +:+ "/" +:+ p)).

Definition lstat (w : World) (p : string) : Errno + (string * node) :=
  match abspath w p with
  | None => inl ENOENT
  | Some k =>
      match w_files w !! k with
      | None => inl ENOENT
      | Some n => inr (k, n)
      end
  end.

(** Follows symbolic links from the key [k], 40 of them at most. *)
Fixpoint follow (fuel : nat) (files : gmap string node) (k : string) : Errno + (string * node) :=
  match files !! k with
  | None => inl ENOENT
  | Some (Symlink t) =>
      match fuel with
      | O => inl ELOOP
      | S fuel' =>
          if bool_decide (t = "") then inl ENOENT
          else follow fuel' files
                 (if path.IsAbs t then path.Clean t
                  else path.Clean (path.Dir k +:+ "/" +:+ t))
      end
  | Some n => inr (k, n)
  end.

Definition stat (w : World) (p : string) : Errno + (string * node) :=
  match abspath w p with
  | None => inl ENOENT
  | Some k => follow 40 (w_files w) k
  end.

Definition fileInfo (name : string) (n : node) : fs.FileInfo :=
  {| fs.Name := name; fs.Mode := fs.modeOf n |}.

(** [os.Stat] *)
Definition Stat (name : string) : Go (option fs.FileInfo * error) := fun w =>
  match stat w name with
  | inl e => (Done (None, Some (PathError "stat" name e)), w)
  | inr (_, n) => (Done (Some (fileInfo (path.Base name) n), None), w)
  end.

(** [os.IsNotExist] *)
Definition IsNotExist (err : error) : bool :=
  match err with
  | Some (PathError _ _ ENOENT) | Some (LinkError _ _ _ ENOENT)
  | Some (SyscallError _ ENOENT) => true
  | _ => false
  end.

(** [os.Readlink] *)
Definition Readlink (name : string) : Go (string * error) := fun w =>
  match lstat w name with
  | inl e => (Done ("", Some (PathError "readlink" name e)), w)
  | inr (_, Symlink t) => (Done (t, None), w)
  | inr _ => (Done ("", Some (PathError "readlink" name EINVAL)), w)
  end.

(** Why nothing can be created at the key [k], if so. *)
Definition cannotCreate (w : World) (k : string) : option Errno :=
  match w_files w !! k with
  | Some _ => Some EEXIST
  | None =>
      match follow 40 (w_files w) (path.Dir k) with
      | inl e => Some e
      | inr (_, Directory) => None
      | inr _ => Some ENOTDIR
      end
  end.

(** [os.Symlink]: it never replaces what [newname] names. *)
Definition Symlink (oldname newname : string) : Go error := fun w =>
  match abspath w newname with
  | None => (Done (Some (LinkError "symlink" oldname newname ENOENT)), w)
  | Some k =>
      match cannotCreate w k with
      | Some e => (Done (Some (LinkError "symlink" oldname newname e)), w)
      | None => (Done None, set_files (<[k := Symlink oldname]> (w_files w)) w)
      end
  end.

(** [os.Mkdir] *)
Definition Mkdir (name : string) (perm : Z) : Go error := fun w =>
  match abspath w name with
  | None => (Done (Some (PathError "mkdir" name ENOENT)), w)
  | Some k =>
      match cannotCreate w k with
      | Some e => (Done (Some (PathError "mkdir" name e)), w)
      | None => (Done None, set_files (<[k := Directory]> (w_files w)) w)
      end
  end.

(** The entries of the directory at key [dir], in the order of the map. *)
Definition entries (files : gmap string node) (dir : string) : list (string * node) :=
  omap (fun '(k, n) =>
          if bool_decide (k ≠ dir ∧ path.Dir k = dir) then Some (path.Base k, n) else None)
       (map_to_list files).

(** [os.Remove]: a file, a link or an empty directory. *)
Definition Remove (name : string) : Go error := fun w =>
  match lstat w name with
  | inl e => (Done (Some (PathError "remove" name e)), w)
  | inr (k, Directory) =>
      match entries (w_files w) k with
      | [] => (Done None, set_files (delete k (w_files w)) w)
      | _ => (Done (Some (PathError "remove" name ENOTEMPTY)), w)
      end
  | inr (k, _) => (Done None, set_files (delete k (w_files w)) w)
  end.

(** [os.Getenv] *)
Definition Getenv (key : string) : Go string := fun w =>
  (Done (default "" (w_env w !! key)), w).

(** [os.UserHomeDir] *)
Definition UserHomeDir : Go (string * error) :=
  v ← Getenv "HOME";
  if bool_decide (v ≠ "") then mret (v, None)
  else mret ("", Some (errorString "$HOME is not defined")).

(** [os.Getwd] *)
Definition Getwd : Go (string * error) := fun w =>
  match w_cwd w with
  | Some d => (Done (d, None), w)
  | None => (Done ("", Some (SyscallError "getwd" ENOENT)), w)
  end.

End os.

(** ** Package io/ioutil *)

Module ioutil.

(** The order [ReadDir] sorts by: the names compared byte by byte, as Go
    compares strings. *)
Definition byName (a b : fs.FileInfo) : Prop :=
  String.leb (fs.Name a) (fs.Name b) = true.

#[global] Instance byName_dec a b : Decision (byName a b).
Proof. unfold byName. apply _. Defined.

(** [ioutil.ReadDir]: the entries of the directory, as [lstat] sees them,
    sorted by file name. *)
Definition ReadDir (dirname : string) : Go (list fs.FileInfo * error) := fun w =>
  match os.stat w dirname with
  | inl e => (Done ([], Some (PathError "open" dirname e)), w)
  | inr (k, Directory) =>
      (Done (merge_sort byName
               (map (fun '(name, n) => os.fileInfo name n) (os.entries (w_files w) k)),
             None), w)
  | inr _ => (Done ([], Some (PathError "readdirent" dirname ENOTDIR)), w)
  end.

End ioutil.

(** ** Package path/filepath (Unix) *)

Module filepath.

Definition IsAbs := path.IsAbs.
Definition Clean := path.Clean.
Definition Join := path.Join.

(** [filepath.Abs] *)
Definition Abs (p : string) : Go (string * error) :=
  if IsAbs p then mret (Clean p, None)
  else
    '(wd, err) ← os.Getwd;
    match err with
    | Some _ => mret ("", err)
    | None => mret (Join [wd; p], None)
    end.

End filepath.

(** ** Package fmt *)

Module fmt.

(** The operands the program passes for [interface{}]. *)
Inductive any :=
| vString (s : string)
| vInt (i : Z)
| vError (e : error).

(** The default format, [%v]. *)
Definition formatValue (x : any) : string :=
  match x with
  | vString s => s
  | vInt i => strconv.Itoa i
  | vError (Some e) => Error e
  | vError None => "<nil>"
  end.

Definition typeName (x : any) : string :=
  match x with
  | vString _ => "string"
  | vInt _ => "int"
  | vError _ => "error"
  end.

Definition badVerb (verb : ascii) (x : any) : string :=
  "%!" +:+ String verb ("(" +:+ typeName x +:+ "=" +:+ formatValue x +:+ ")").

(** One operand under one verb.  The program uses [%s] and [%q] with
    strings and [%d] with ints; the other pairs are reported the way Go
    reports a wrong verb. *)
Definition formatVerb (verb : ascii) (x : any) : string :=
  match verb, x with
  | "s"%char, vString s => s
  | "s"%char, vError (Some e) => Error e
  | "q"%char, vString s => strconv.Quote s
  | "d"%char, vInt i => strconv.Itoa i
  | "v"%char, _ => formatValue x
  | _, _ => badVerb verb x
  end.

(** What Go appends for operands that no verb used. *)
Definition extra (a : list any) : string :=
  match a with
  | [] => ""
  | _ => "%!(EXTRA " +:+
         String.concat ", " (map (fun x => typeName x +:+ "=" +:+ formatValue x) a) +:+ ")"
  end.

Fixpoint sprintf (format : list ascii) (a : list any) : string :=
  match format with
  | [] => extra a
  | c :: rest =>
      if bool_decide (c = "%"%char) then
        match rest with
        | [] => "%!(NOVERB)" +:+ extra a
        | verb :: rest' =>
            if bool_decide (verb = "%"%char) then String verb (sprintf rest' a)
            else
              match a with
              | [] => "%!" +:+ String verb ("(MISSING)" +:+ sprintf rest' [])
              | x :: a' => formatVerb verb x +:+ sprintf rest' a'
              end
        end
      else String c (sprintf rest a)
  end.

(** [fmt.Sprintf] *)
Definition Sprintf (format : string) (a : list any) : string :=
  sprintf (chars format) a.

Definition write (text : string) : Go unit := fun w =>
  (Done (), set_stdout (w_stdout w +:+ text) w).

(** [fmt.Printf] *)
Definition Printf (format : string) (a : list any) : Go unit :=
  write (Sprintf format a).

(** [fmt.Println] *)
Definition Println (a : list any) : Go unit :=
  write (String.concat " " (map formatValue a) +:+ LF).

(** [fmt.Errorf] *)
Definition Errorf (format : string) (a : list any) : error :=
  Some (errorString (Sprintf format a)).

End fmt.

Import fmt (any(..)).

(** ** Package flag *)

Module flag.

(** The flags that are defined, all boolean, with their values. *)
Definition FlagSet := gmap string bool.

Definition CommandLine : FlagSet := ∅.

(** [flag.BoolVar(p, name, value, usage)]: the variable starts at [value]. *)
Definition BoolVar (name : string) (value : bool) (f : FlagSet) : FlagSet :=
  <[name := value]> f.

Definition value (f : FlagSet) (name : string) : bool := default false (f !! name).

(** [name=value] split at the first [=] that is not the first byte. *)
Fixpoint splitValue (name : list ascii) : list ascii * option (list ascii) :=
  match name with
  | [] => ([], None)
  | c :: rest =>
      if bool_decide (c = "="%char) then ([], Some rest)
      else let '(n, v) := splitValue rest in (c :: n, v)
  end.

Inductive parsed :=
| Flag (name : string) (value : option string)
| NotAFlag
| Terminator
| BadSyntax.

(** How [parseOne] reads one argument. *)
Definition classify (s : string) : parsed :=
  match chars s with
  | c0 :: c1 :: rest =>
      if negb (bool_decide (c0 = "-"%char)) then NotAFlag
      else if bool_decide (c1 = "-"%char) && bool_decide (rest = []) then Terminator
      else
        let name := if bool_decide (c1 = "-"%char) then rest else c1 :: rest in
        match name with
        | [] => BadSyntax
        | n0 :: name' =>
            if bool_decide (n0 = "-"%char) || bool_decide (n0 = "="%char) then BadSyntax
            else let '(n, v) := splitValue name' in Flag (unchars (n0 :: n)) (unchars <$> v)
        end
  | _ => NotAFlag
  end.

(** The loop of [FlagSet.Parse] under [ExitOnError]: either the flags as set
    and the arguments left over, or the exit status. *)
Fixpoint parse (f : FlagSet) (arguments : list string) : Z + (FlagSet * list string) :=
  match arguments with
  | [] => inr (f, [])
  | s :: rest =>
      match classify s with
      | NotAFlag => inr (f, arguments)
      | Terminator => inr (f, rest)
      | BadSyntax => inl 2
      | Flag name v =>
          match f !! name with
          | None => if bool_decide (name = "help") || bool_decide (name = "h") then inl 0 else inl 2
          | Some _ =>
              match v with
              | None => parse (<[name := true]> f) rest
              | Some str =>
                  match strconv.ParseBool str with
                  | Some b => parse (<[name := b]> f) rest
                  | None => inl 2
                  end
              end
          end
      end
  end.

(** [flag.Parse()]: parses [os.Args[1:]]. *)
Definition Parse (f : FlagSet) : Go FlagSet :=
  args ← os.Args;
  arguments ← sliceFrom args 1;
  match parse f arguments with
  | inl code => os.Exit code
  | inr (f', _) => mret f'
  end.

End flag.

(** * The program: main.go *)

Definition defaultConfigDir : string := ".kconf".
Definition kubeConfigVar : string := "KUBECONFIG".
Definition confPathVar : string := "KCONF_LIBRARY_PATH".
(** [0755] *)
Definition confDirFileMode : Z := 493.

(** [Config]; [Ops] is a [uint8].  The fields [Set] and [List] carry an
    underscore here: [Set] is a sort, [List] the name of the list library. *)
Record Config := {
  Add : bool;
  Set_ : bool;
  List_ : bool;
  Remove : bool;
  Ops : Z;
}.

Definition withOps (ops : Z) (c : Config) : Config :=
  {| Add := Add c; Set_ := Set_ c; List_ := List_ c; Remove := Remove c; Ops := ops |}.
Definition withAdd (b : bool) (c : Config) : Config :=
  {| Add := b; Set_ := Set_ c; List_ := List_ c; Remove := Remove c; Ops := Ops c |}.
Definition withSet (b : bool) (c : Config) : Config :=
  {| Add := Add c; Set_ := b; List_ := List_ c; Remove := Remove c; Ops := Ops c |}.
Definition withList (b : bool) (c : Config) : Config :=
  {| Add := Add c; Set_ := Set_ c; List_ := b; Remove := Remove c; Ops := Ops c |}.

(** [c.Ops |= bit], on eight bits. *)
Definition orOps (bit : Z) (c : Config) : Config :=
  withOps (Z.land (Z.lor (Ops c) bit) 255) c.

(** The handlers have the Go type [func(string, []string) error]. *)
Definition handler : Type := string -> list string -> Go error.

(** [Config.Flags] *)
Definition Flags (c : Config) : Go Config :=
  let f := flag.BoolVar "a" false flag.CommandLine in
  let f := flag.BoolVar "s" false f in
  let f := flag.BoolVar "l" false f in
  let f := flag.BoolVar "r" false f in
  f ← flag.Parse f;
  let c := {| Add := flag.value f "a"; Set_ := flag.value f "s";
              List_ := flag.value f "l"; Remove := flag.value f "r"; Ops := Ops c |} in
  let c := if Add c then orOps 1 c else c in
  let c := if Set_ c then orOps 2 c else c in
  let c := if List_ c then orOps 4 c else c in
  let c := if Remove c then orOps 8 c else c in
  if bool_decide (Ops c = 0) then
    args ← os.Args;
    if bool_decide (len args = 1) then mret (withList true c)
    else if bool_decide (len args = 2) then mret (withSet true c)
    else if bool_decide (len args = 3) then mret (withAdd true c)
    else mret c
  else mret c.

(** [Config.Args] *)
Definition Args (c : Config) : Go (list string) :=
  args ← os.Args;
  if bool_decide (Ops c = 0) then sliceFrom args 1 else sliceFrom args 2.

(** [Config.Validate] *)
Definition Validate (c : Config) : bool :=
  bool_decide (Ops c ∈ [0; 1; 2; 4; 8]).

(** [exists] (a keyword here, hence the underscore) *)
Definition exists_ (p : string) : Go bool :=
  '(_, err) ← os.Stat p;
  mret (negb (os.IsNotExist err)).

(** [addKubeconfig] *)
Definition addKubeconfig (configPath : string) (args : list string) : Go error :=
  if bool_decide (len args < 1) then mret (fmt.Errorf "not enough arguments" []) else
  slink ← (if bool_decide (len args = 1)
           then a0 ← index args 0; index (strings.Split (path.Base a0) ".") 0
           else index args 1);
  file ← index args 0;
  let symlink := configPath +:+ "/" +:+ slink in
  '(file, err) ← filepath.Abs file;
  match err with
  | Some _ => mret err
  | None =>
      found ← exists_ file;
      if negb found then mret (fmt.Errorf "kubeconfig not found: %s" [vString file]) else
      taken ← exists_ symlink;
      if taken : bool then mret (fmt.Errorf "kubeconfig already exists: %q" [vString slink]) else
      err ← os.Symlink file symlink;
      match err with
      | Some _ => mret err
      | None =>
          fmt.Printf ("%s -> %s added" +:+ LF) [vString slink; vString file];;
          mret None
      end
  end.

(** The test of the loop of [listSymDir]. *)
Definition isSymlink (file : fs.FileInfo) : bool :=
  negb (fs.IsDir file) && (Z.land (fs.Mode file) fs.ModeSymlink =? fs.ModeSymlink).

(** [listSymDir] *)
Definition listSymDir (dir : string) : Go (list fs.FileInfo * error) :=
  '(files, err) ← ioutil.ReadDir dir;
  match err with
  | Some _ => mret ([], err)
  | None =>
      let res := foldl (fun res file => if isSymlink file then res ++ [file] else res) [] files in
      mret (res, None)
  end.

(** [for i, x := range l { body }] *)
Fixpoint forRange {A} (l : list A) (i : Z) (body : Z -> A -> Go unit) : Go unit :=
  match l with
  | [] => mret ()
  | x :: l' => body i x;; forRange l' (i + 1) body
  end.

(** [listKubeconfigs] *)
Definition listKubeconfigs (configPath : string) (args : list string) : Go error :=
  '(files, err) ← listSymDir configPath;
  match err with
  | Some _ => mret err
  | None =>
      currKubeConfig ← os.Getenv kubeConfigVar;
      forRange files 0 (fun i file =>
        let star :=
          if bool_decide (path.Join [configPath; fs.Name file] = currKubeConfig)
          then "* " else "  " in
        fmt.Printf ("%s%d) %s" +:+ LF) [vString star; vInt (i + 1); vString (fs.Name file)]);;
      mret None
  end.

(** [makeKubeconfig].  The loop over [files] returns at the first file named
    as the trimmed argument; it runs only when the argument is no number. *)
Definition makeKubeconfig (configPath : string) (args : list string)
    (result : string -> Go error) : Go error :=
  if bool_decide (len args = 0) then mret (fmt.Errorf "not enough arguments" []) else
  '(files, err) ← listSymDir configPath;
  match err with
  | Some _ => mret None
  | None =>
      a0 ← index args 0;
      let '(idx, err) := strconv.Atoi a0 in
      let named :=
        match err with
        | Some _ =>
            List.find (fun file => bool_decide (fs.Name file = strings.TrimSpace a0)) files
        | None => None
        end in
      match named with
      | Some file => result (path.Join [configPath; fs.Name file])
      | None =>
          if bool_decide (idx < 0) || bool_decide (idx > len files)
          then mret (fmt.Errorf "index out of range" [])
          else
            file ← index files (idx - 1);
            result (path.Join [configPath; fs.Name file])
      end
  end.

(** [output] *)
Definition output (linkPath : string) : Go error :=
  fmt.Printf ("export %s=%s" +:+ LF) [vString kubeConfigVar; vString linkPath];;
  mret None.

(** [remove] *)
Definition remove (linkPath : string) : Go error :=
  '(kubeConfigPath, err) ← os.Readlink linkPath;
  match err with
  | Some _ => mret err
  | None =>
      err ← os.Remove linkPath;
      match err with
      | Some _ => mret err
      | None =>
          fmt.Printf ("%s -> %s removed" +:+ LF)
            [vString (path.Base linkPath); vString kubeConfigPath];;
          mret None
      end
  end.

(** [setKubeconfig] *)
Definition setKubeconfig (configPath : string) (args : list string) : Go error :=
  makeKubeconfig configPath args output.

(** [removeKubeconfig] *)
Definition removeKubeconfig (configPath : string) (args : list string) : Go error :=
  makeKubeconfig configPath args remove.

(** The handler [Config.Handler] returns when no operation is set. *)
Definition noop : handler := fun _ _ => mret None.

(** [Config.Handler] *)
Definition Handler (c : Config) : handler :=
  if Add c then addKubeconfig
  else if Set_ c then setKubeconfig
  else if List_ c then listKubeconfigs
  else if Remove c then removeKubeconfig
  else noop.

(** [configPath] *)
Definition configPath : Go (string * error) :=
  v ← os.Getenv confPathVar;
  let configPath := strings.TrimSpace v in
  let finish (configPath : string) : Go (string * error) :=
    found ← exists_ configPath;
    if found : bool then mret (configPath, None)
    else err ← os.Mkdir configPath confDirFileMode; mret (configPath, err) in
  if bool_decide (strlen configPath = 0) then
    '(homeDir, err) ← os.UserHomeDir;
    match err with
    | Some _ => mret ("", err)
    | None => finish (homeDir +:+ "/" +:+ defaultConfigDir)
    end
  else finish configPath.

(** [&Config{}] *)
Definition zeroConfig : Config :=
  {| Add := false; Set_ := false; List_ := false; Remove := false; Ops := 0 |}.

(** [main] *)
Definition main : Go unit :=
  cfg ← Flags zeroConfig;
  if negb (Validate cfg) then
    fmt.Println [vString "error validating flags"];; os.Exit 1
  else
    '(configPath, err) ← configPath;
    match err with
    | Some _ => fmt.Println [vString "error getting config path:"; vError err];; os.Exit 1
    | None =>
        let h := Handler cfg in
        args ← Args cfg;
        err ← h configPath args;
        match err with
        | Some _ => fmt.Println [vString "error handling request:"; vError err];; os.Exit 1
        | None => mret ()
        end
    end.

(** The exit status of the process: a panic ends it with status 2. *)
Definition exitStatus {A} (r : exec A) : Z :=
  match r with
  | Done _ => 0
  | Panic _ => 2
  | Exit code => code
  end.

(** ** A sample session *)

Definition bobFiles : gmap string node :=
  list_to_map
    [ ("/", Directory); ("/home", Directory); ("/home/bob", Directory);
      ("/home/bob/.kconf", Directory);
      ("/home/bob/git", Directory);
      ("/home/bob/git/kube_config_cluster.yml", RegularFile);
      ("/home/bob/.kconf/prod", Symlink "/srv/prod.yml");
      ("/home/bob/.kconf/my", Symlink "/home/bob/git/kube_config_cluster.yml");
      ("/home/bob/.kconf/notes.txt", RegularFile);
      ("/home/bob/.kconf/old", Directory);
      ("/home/bob/.kconf/monit", Symlink "/srv/monit.yml");
      ("/srv", Directory); ("/srv/prod.yml", RegularFile); ("/srv/monit.yml", RegularFile) ].

Definition bob (args : list string) : World :=
  {| w_files := bobFiles;
     w_cwd := Some "/home/bob/git";
     w_env := {[ "HOME" := "/home/bob"; "KUBECONFIG" := "/home/bob/.kconf/my" ]};
     w_args := "kconf" :: args;
     w_stdout := "" |}.

(** The listing of the sample store. *)
Definition bobListing : list fs.FileInfo :=
  [ {| fs.Name := "monit"; fs.Mode := Z.lor fs.ModeSymlink 511 |};
    {| fs.Name := "my"; fs.Mode := Z.lor fs.ModeSymlink 511 |};
    {| fs.Name := "prod"; fs.Mode := Z.lor fs.ModeSymlink 511 |} ].

(** The sample world once the file behind the entry [prod] is gone: the
    entry dangles. *)
Definition bobDangling (args : list string) : World :=
  set_files (delete "/srv/prod.yml" bobFiles) (bob args).

(** The sample world with the store set to a path that is no directory. *)
Definition bobLost (args : list string) : World :=
  {| w_files := bobFiles;
     w_cwd := Some "/home/bob/git";
     w_env := {[ "HOME" := "/home/bob"; "KCONF_LIBRARY_PATH" := "/srv/prod.yml" ]};
     w_args := "kconf" :: args;
     w_stdout := "" |}.

(** ** Notions used in the statements *)

(** The flags [Config.Flags] defines. *)
Definition kconfFlags : flag.FlagSet :=
  flag.BoolVar "r" false (flag.BoolVar "l" false (flag.BoolVar "s" false
    (flag.BoolVar "a" false flag.CommandLine))).

(** How many of the four flags are set. *)
Definition flagsSet (a s l r : bool) : Z := Z.b2z a + Z.b2z s + Z.b2z l + Z.b2z r.

(** The bytes of [s] before the first [c]; all of [s] when [c] is not in it. *)
Fixpoint beforeFirst (c : ascii) (s : string) : string :=
  match s with
  | EmptyString => EmptyString
  | String x s' => if bool_decide (x = c) then EmptyString else String x (beforeFirst c s')
  end.

(** The alias of an Add: the second argument, or the base name of the file
    up to its first dot. *)
Definition aliasOf (file : string) (rest : list string) : string :=
  match rest with
  | [] => beforeFirst "." (path.Base file)
  | alias :: _ => alias
  end.

(** The entry a selector resolves to, in the words of the specification: a
    selector that reads as an integer is an index into the entries, counted
    from 1; any other selector is an alias, compared with the names after it
    is trimmed of white space, and the first entry so named is taken. *)
Definition resolve (selector : string) (entries : list fs.FileInfo) : option fs.FileInfo :=
  match strconv.Atoi selector with
  | (idx, None) =>
      if bool_decide (1 <= idx <= len entries) then entries !! Z.to_nat (idx - 1) else None
  | (_, Some _) =>
      List.find (fun entry => bool_decide (fs.Name entry = strings.TrimSpace selector)) entries
  end.

(** The line [listKubeconfigs] prints for the entry at position [i],
    counted from 0; [current] is the value of [KUBECONFIG]. *)
Definition listLine (configPath current : string) (i : Z) (file : fs.FileInfo) : string :=
  (if bool_decide (path.Join [configPath; fs.Name file] = current) then "* " else "  ") +:+
  strconv.Itoa (i + 1) +:+ ") " +:+ fs.Name file +:+ LF.

Fixpoint listLines (configPath current : string) (i : Z) (files : list fs.FileInfo) : string :=
  match files with
  | [] => ""
  | file :: files' =>
      listLine configPath current i file +:+ listLines configPath current (i + 1) files'
  end.

(** Names with no slash in them. *)
Definition slashless (e : string) : Prop := path.slash ∉ chars e.

(** The names a directory entry can have. *)
Definition goodName (e : string) : Prop := e ≠ "" /\ e ≠ "." /\ e ≠ ".." /\ slashless e.

(** The absolute path with the elements [elems]. *)
Definition absOf (elems : list string) : string := "/" +:+ String.concat "/" elems.

(** The elements [path.Clean] keeps of the rooted path [/p]. *)
Definition elemsOf (p : string) : list string :=
  rev (foldl (path.cleanStep true) [] (strings.Split p "/")).

(** The key of the entry [e] of the directory with key [d]. *)
Definition child (d e : string) : string :=
  (if bool_decide (d = "/") then "" else d) +:+ String "/" e.

(** The keys of the file system are absolute paths in clean form. *)
Definition cleanKeys (files : gmap string node) : Prop :=
  map_Forall (fun k _ => path.IsAbs k = true /\ path.Clean k = k) files.

(** The store path [configPath] decides on, if any: the override without
    surrounding white space, else [.kconf] under the home directory. *)
Definition storePath (w : World) : option string :=
  let override := strings.TrimSpace (default "" (w_env w !! confPathVar)) in
  let home := default "" (w_env w !! "HOME") in
  if bool_decide (override ≠ "") then Some override
  else if bool_decide (home ≠ "") then Some (home +:+ "/" +:+ defaultConfigDir)
  else None.

(** A world in which the store does not exist yet. *)
Definition bobFresh (args : list string) : World :=
  {| w_files := list_to_map
       [ ("/", Directory); ("/home", Directory); ("/home/bob", Directory);
         ("/home/bob/cluster.yml", RegularFile) ];
     w_cwd := Some "/home/bob";
     w_env := {[ "HOME" := "/home/bob" ]};
     w_args := "kconf" :: args;
     w_stdout := "" |}.

(** The sample session after [kconf kube_config_cluster.yml], and after
    [kconf -r my]. *)
Definition bobAdded : World :=
  (addKubeconfig "/home/bob/.kconf" ["kube_config_cluster.yml"] (bob [])).2.

Definition bobRemoved : World :=
  (remove "/home/bob/.kconf/my" (bob [])).2.

(** * Checks of the models on examples *)

Example TrimSpace_ex : strings.TrimSpace (bytes [32; 9; 109; 121; 194; 160; 10]%nat) = "my".
Proof. reflexivity. Qed.

Example Split_ex : strings.Split "kube_config_cluster.yml" "." = ["kube_config_cluster"; "yml"].
Proof. reflexivity. Qed.

Example Split_ex2 : strings.Split "a--b---c" "--" = ["a"; "b"; "-c"].
Proof. reflexivity. Qed.

Example Atoi_ex :
  strconv.Atoi "42" = (42, None) /\ strconv.Atoi "-7" = (-7, None) /\
  fst (strconv.Atoi "99999999999999999999") = 2 ^ 63 - 1 /\
  fst (strconv.Atoi "x1") = 0.
Proof. vm_compute. auto. Qed.

Example Clean_ex :
  path.Clean "/home//bob/./.kconf/../x/" = "/home/bob/x" /\
  path.Clean "../../a/.." = "../.." /\ path.Clean "/.." = "/" /\
  path.Base "/a/b.yml//" = "b.yml" /\ path.Base "///" = "/" /\
  path.Join ["/home/bob/.kconf"; "my"] = "/home/bob/.kconf/my" /\
  path.Dir "/a/b" = "/a" /\ path.Dir "/a" = "/".
Proof. vm_compute. auto 10. Qed.

Example Quote_ex : strconv.Quote "my" = bytes [34; 109; 121; 34]%nat.
Proof. reflexivity. Qed.


(** * Properties of the library models *)

(** ** The order of listings *)

Lemma string_leb_trans (a b c : string) :
  String.leb a b = true -> String.leb b c = true -> String.leb a c = true.
Proof.
  unfold String.leb. revert b c.
  induction a as [|x a IH]; intros [|y b] [|z c]; simpl; try done.
  unfold Ascii.compare.
  destruct (N.compare_spec (N_of_ascii x) (N_of_ascii y)) as [Hxy|Hxy|Hxy];
    destruct (N.compare_spec (N_of_ascii y) (N_of_ascii z)) as [Hyz|Hyz|Hyz];
    destruct (N.compare_spec (N_of_ascii x) (N_of_ascii z)) as [Hxz|Hxz|Hxz];
    try done; try lia.
  apply IH.
Qed.

Lemma byName_total : Total ioutil.byName.
Proof. intros a b. apply String.leb_total. Qed.

Lemma byName_trans : Transitive ioutil.byName.
Proof. intros a b c. apply string_leb_trans. Qed.

Lemma StronglySorted_filter {A} (R : relation A) (P : A -> bool) (l : list A) :
  StronglySorted R l -> StronglySorted R (List.filter P l).
Proof.
  induction 1 as [|x l Hl IH Hx]; simpl; [constructor|].
  destruct (P x); [|done].
  constructor; [done|].
  rewrite List.Forall_forall in Hx |- *.
  intros y Hy. apply Hx. by apply List.filter_In in Hy as [? _].
Qed.

(** The loop of [listSymDir] keeps the files that pass its test, in order. *)
Lemma listSymDir_loop (res files : list fs.FileInfo) :
  foldl (fun res file => if isSymlink file then res ++ [file] else res) res files =
  res ++ List.filter isSymlink files.
Proof.
  revert res. induction files as [|f files IH]; intros res; simpl.
  - by rewrite app_nil_r.
  - rewrite IH. destruct (isSymlink f); [|done]. by rewrite <- app_assoc.
Qed.

(** Of the nodes, [lstat] reports only symbolic links as such. *)
Lemma isSymlink_fileInfo (name : string) (n : node) :
  isSymlink (os.fileInfo name n) = true <-> exists t, n = Symlink t.
Proof.
  destruct n; unfold isSymlink, os.fileInfo, fs.IsDir; simpl.
  - split; [done|]. by intros [t Ht].
  - split; [done|]. by intros [t Ht].
  - split; [by eexists|]. intros _. reflexivity.
Qed.

Lemma elem_of_entries (files : gmap string node) (dir name : string) (n : node) :
  (name, n) ∈ os.entries files dir <->
  exists k, files !! k = Some n /\ k ≠ dir /\ path.Dir k = dir /\ name = path.Base k.
Proof.
  unfold os.entries. rewrite list_elem_of_omap. split.
  - intros [[k n'] [Hin Hk]]. apply elem_of_map_to_list in Hin.
    case_bool_decide as Hd; [|done]. destruct Hd as [Hne Hdir].
    injection Hk as <- <-. by exists k.
  - intros (k & Hk & Hne & Hdir & ->). exists (k, n). split.
    + by apply elem_of_map_to_list.
    + by rewrite bool_decide_eq_true_2.
Qed.

(** ** Running Go code *)

Lemma bind_done {A B} (m : Go A) (k : A -> Go B) (w w' : World) (a : A) :
  m w = (Done a, w') -> (m ≫= k) w = k a w'.
Proof. intros H. unfold mbind, Go_bind. by rewrite H. Qed.

(** One step of a run whose outcome [H] gives. *)
Ltac run H := rewrite (bind_done _ _ _ _ _ H).

Lemma bind_panic {A B} (m : Go A) (k : A -> Go B) (w w' : World) (p : panic) :
  m w = (Panic p, w') -> (m ≫= k) w = (Panic p, w').
Proof. intros H. unfold mbind, Go_bind. by rewrite H. Qed.

Lemma index_ok {A} (l : list A) (i : Z) (x : A) (w : World) :
  0 <= i -> l !! Z.to_nat i = Some x -> index l i w = (Done x, w).
Proof.
  intros Hi Hx. unfold index.
  rewrite bool_decide_eq_true_2.
  - by rewrite Hx.
  - apply lookup_lt_Some in Hx. lia.
Qed.

Lemma index_out {A} (l : list A) (i : Z) (w : World) :
  ¬ (0 <= i < len l) -> index l i w = (Panic (IndexOutOfRange i (len l)), w).
Proof. intros Hi. unfold index. by rewrite bool_decide_eq_false_2. Qed.

(** ** Listing the store *)

(** [listSymDir] by the node its argument names. *)
Lemma listSymDir_eq (dir : string) (w : World) :
  listSymDir dir w =
  match os.stat w dir with
  | inl e => (Done ([], Some (PathError "open" dir e)), w)
  | inr (k, Directory) =>
      (Done (List.filter isSymlink
               (merge_sort ioutil.byName
                  (map (fun '(name, n) => os.fileInfo name n) (os.entries (w_files w) k))),
             None), w)
  | inr _ => (Done ([], Some (PathError "readdirent" dir ENOTDIR)), w)
  end.
Proof.
  unfold listSymDir, ioutil.ReadDir, mbind, Go_bind, mret, Go_ret.
  destruct (os.stat w dir) as [e|[k [| |t]]]; try reflexivity.
  by rewrite listSymDir_loop.
Qed.

(** Listing reads the world and leaves it as it is. *)
Lemma listSymDir_reads (dir : string) (w : World) :
  exists r, listSymDir dir w = (Done r, w).
Proof.
  rewrite listSymDir_eq.
  destruct (os.stat w dir) as [e|[k [| |t]]]; eauto.
Qed.

(** A listing that succeeds is sorted by name and holds the symbolic links
    among the children of the directory, and nothing else. *)
Lemma listSymDir_ok (dir : string) (w w' : World) (files : list fs.FileInfo) :
  listSymDir dir w = (Done (files, None), w') ->
  w' = w /\
  exists d, os.stat w dir = inr (d, Directory) /\
    StronglySorted ioutil.byName files /\
    forall f, f ∈ files <->
      exists k t, w_files w !! k = Some (Symlink t) /\ k ≠ d /\ path.Dir k = d /\
                  f = os.fileInfo (path.Base k) (Symlink t).
Proof.
  rewrite listSymDir_eq.
  destruct (os.stat w dir) as [e|[d [| |t]]]; try done.
  intros [= <- <-]. split; [done|]. exists d. split; [done|]. split.
  - apply StronglySorted_filter.
    apply (@StronglySorted_merge_sort _ _ _ byName_trans byName_total).
  - intros f. rewrite list_elem_of_In, List.filter_In, <- list_elem_of_In.
    rewrite merge_sort_Permutation, list_elem_of_fmap. split.
    + intros [[[name n] [-> Hin]] Hsym].
      apply isSymlink_fileInfo in Hsym as [t ->].
      apply elem_of_entries in Hin as (k & Hk & Hne & Hdir & ->). by exists k, t.
    + intros (k & t & Hk & Hne & Hdir & ->). split.
      * exists (path.Base k, Symlink t). split; [done|].
        apply elem_of_entries. by exists k.
      * apply isSymlink_fileInfo. by eexists.
Qed.

(** ** Resolving a selector *)

Example listSymDir_bob :
  listSymDir "/home/bob/.kconf" (bob []) = (Done (bobListing, None), bob []).
Proof. vm_compute. reflexivity. Qed.

Section Resolver.

(** A store that can be listed, and what the selected path is handed to. *)
Variables (configPath : string) (result : string -> Go error).
Variables (w : World) (files : list fs.FileInfo).
Hypothesis listed : listSymDir configPath w = (Done (files, None), w).

(** [makeKubeconfig] once the listing has succeeded. *)
Lemma makeKubeconfig_listed (a0 : string) (rest : list string) :
  makeKubeconfig configPath (a0 :: rest) result w =
  match
    match (strconv.Atoi a0).2 with
    | Some _ => List.find (fun file => bool_decide (fs.Name file = strings.TrimSpace a0)) files
    | None => None
    end
  with
  | Some file => result (path.Join [configPath; fs.Name file]) w
  | None =>
      if bool_decide ((strconv.Atoi a0).1 < 0) || bool_decide ((strconv.Atoi a0).1 > len files)
      then (Done (fmt.Errorf "index out of range" []), w)
      else (index files ((strconv.Atoi a0).1 - 1) ≫=
              fun file => result (path.Join [configPath; fs.Name file])) w
  end.
Proof.
  unfold makeKubeconfig.
  rewrite bool_decide_eq_false_2 by (unfold len; simpl; lia).
  run listed. simpl.
  run (index_ok (a0 :: rest) 0 a0 w ltac:(lia) eq_refl).
  destruct (strconv.Atoi a0) as [idx err]. simpl.
  destruct (match err with Some _ => _ | None => None end); [done|].
  by destruct (bool_decide (idx < 0) || bool_decide (idx > len files)).
Qed.

(** An index above the number of entries is refused. *)
Lemma makeKubeconfig_index_above (a0 : string) (rest : list string) (idx : Z) :
  strconv.Atoi a0 = (idx, None) ->
  idx > len files ->
  makeKubeconfig configPath (a0 :: rest) result w =
    (Done (Some (errorString "index out of range")), w).
Proof.
  intros Hidx Hbig. rewrite makeKubeconfig_listed, Hidx. cbn [fst snd].
  by rewrite (bool_decide_eq_true_2 (idx > len files)), orb_true_r.
Qed.

(** A negative index is refused. *)
Lemma makeKubeconfig_index_negative (a0 : string) (rest : list string) (idx : Z) :
  strconv.Atoi a0 = (idx, None) ->
  idx < 0 ->
  makeKubeconfig configPath (a0 :: rest) result w =
    (Done (Some (errorString "index out of range")), w).
Proof.
  intros Hidx Hneg. rewrite makeKubeconfig_listed, Hidx. cbn [fst snd].
  by rewrite (bool_decide_eq_true_2 (idx < 0)).
Qed.

(** An argument that is no number selects the first entry it names. *)
Lemma makeKubeconfig_alias_found (a0 : string) (rest : list string)
    (idx : Z) (e : strconv.NumError) (file : fs.FileInfo) :
  strconv.Atoi a0 = (idx, Some e) ->
  List.find (fun file => bool_decide (fs.Name file = strings.TrimSpace a0)) files = Some file ->
  fs.Name file = strings.TrimSpace a0 /\
  makeKubeconfig configPath (a0 :: rest) result w =
    result (path.Join [configPath; fs.Name file]) w.
Proof.
  intros Hidx Hfind. split.
  - apply List.find_some in Hfind as [_ Hname]. by apply bool_decide_eq_true in Hname.
  - rewrite makeKubeconfig_listed, Hidx. cbn [fst snd]. by rewrite Hfind.
Qed.

(** C1 (defect of the code): with the index 0 the bounds test of
    [makeKubeconfig] passes, since it only refuses [idx < 0] and
    [idx > len(files)]; the program then evaluates [files[-1]], which is an
    access outside the listing and a run-time panic, where the claim asks for
    the error "index out of range". *)
Theorem makeKubeconfig_index_zero_panics (a0 : string) (rest : list string) :
  strconv.Atoi a0 = (0, None) ->
  makeKubeconfig configPath (a0 :: rest) result w =
    (Panic (IndexOutOfRange (-1) (len files)), w).
Proof.
  intros Hidx. rewrite makeKubeconfig_listed, Hidx. cbn [fst snd].
  rewrite (bool_decide_eq_false_2 (0 < 0)) by lia.
  rewrite (bool_decide_eq_false_2 (0 > len files)) by (unfold len; lia).
  cbn [orb]. apply bind_panic, index_out. lia.
Qed.

(** C2 (defect of the code): an argument that is no number and names no
    entry is not refused.  [strconv.Atoi] has left [idx] at 0, the loop finds
    nothing, and the program goes on to the bounds test, which 0 passes, and
    to [files[-1]]: a run-time panic, where the claim asks for a not-found
    error and no access to the entries. *)
Theorem makeKubeconfig_unmatched_alias_panics (a0 : string) (rest : list string)
    (e : strconv.NumError) :
  strconv.Atoi a0 = (0, Some e) ->
  (forall file, file ∈ files -> fs.Name file ≠ strings.TrimSpace a0) ->
  makeKubeconfig configPath (a0 :: rest) result w =
    (Panic (IndexOutOfRange (-1) (len files)), w).
Proof.
  intros Hidx Hnone. rewrite makeKubeconfig_listed, Hidx. cbn [fst snd].
  destruct (List.find _ files) as [file|] eqn:Hfind.
  { apply List.find_some in Hfind as [Hin Hname].
    apply bool_decide_eq_true in Hname. apply list_elem_of_In in Hin.
    by destruct (Hnone file Hin). }
  rewrite (bool_decide_eq_false_2 (0 < 0)) by lia.
  rewrite (bool_decide_eq_false_2 (0 > len files)) by (unfold len; lia).
  cbn [orb]. apply bind_panic, index_out. lia.
Qed.

(** C4: with an index [i] between 1 and the number of entries,
    [makeKubeconfig] hands the callback the path of the [i]-th entry of the
    listing; the listing is a function of the file system, it is sorted by
    name, and its entries are the symbolic links among the children of the
    store directory: no directory and no regular file is listed. *)
Theorem makeKubeconfig_index_in_range (a0 : string) (rest : list string) (i : Z) :
  strconv.Atoi a0 = (i, None) ->
  1 <= i <= len files ->
  (exists file, files !! Z.to_nat (i - 1) = Some file /\
     makeKubeconfig configPath (a0 :: rest) result w =
       result (path.Join [configPath; fs.Name file]) w) /\
  StronglySorted ioutil.byName files /\
  exists d, os.stat w configPath = inr (d, Directory) /\
    forall f, f ∈ files <->
      exists k t, w_files w !! k = Some (Symlink t) /\ k ≠ d /\ path.Dir k = d /\
                  f = os.fileInfo (path.Base k) (Symlink t).
Proof.
  intros Hidx Hi. split.
  - destruct (lookup_lt_is_Some_2 files (Z.to_nat (i - 1))) as [file Hfile].
    { unfold len in Hi. lia. }
    exists file. split; [done|].
    rewrite makeKubeconfig_listed, Hidx. cbn [fst snd].
    rewrite (bool_decide_eq_false_2 (i < 0)) by lia.
    rewrite (bool_decide_eq_false_2 (i > len files)) by lia.
    cbn [orb]. assert (0 <= i - 1) as Hi' by lia.
    by run (index_ok files _ file w Hi' Hfile).
  - destruct (listSymDir_ok _ _ _ _ listed) as (_ & d & Hd & Hsorted & Hmem). eauto.
Qed.

End Resolver.

Lemma makeKubeconfig_index_zero_panics_witness :
  listSymDir "/home/bob/.kconf" (bob ["0"]) = (Done (bobListing, None), bob ["0"]) /\
  strconv.Atoi "0" = (0, None) /\
  setKubeconfig "/home/bob/.kconf" ["0"] (bob ["0"]) =
    (Panic (IndexOutOfRange (-1) (len bobListing)), bob ["0"]).
Proof.
  split; [vm_compute; reflexivity|]. split; [vm_compute; reflexivity|].
  apply (makeKubeconfig_index_zero_panics "/home/bob/.kconf" output (bob ["0"]) bobListing);
    vm_compute; reflexivity.
Defined.

Lemma makeKubeconfig_unmatched_alias_panics_witness :
  listSymDir "/home/bob/.kconf" (bob ["nope"]) = (Done (bobListing, None), bob ["nope"]) /\
  strconv.Atoi "nope" =
    (0, Some {| strconv.Func := "Atoi"; strconv.Num := "nope"; strconv.Err_ := strconv.ErrSyntax |}) /\
  (forall file, file ∈ bobListing -> fs.Name file ≠ strings.TrimSpace "nope") /\
  setKubeconfig "/home/bob/.kconf" ["nope"] (bob ["nope"]) =
    (Panic (IndexOutOfRange (-1) (len bobListing)), bob ["nope"]).
Proof.
  assert (forall file, file ∈ bobListing -> fs.Name file ≠ strings.TrimSpace "nope") as Hnone.
  { intros file Hin. unfold bobListing in Hin.
    repeat (apply elem_of_cons in Hin as [->|Hin]; [by vm_compute|]).
    by apply elem_of_nil in Hin. }
  split; [vm_compute; reflexivity|]. split; [vm_compute; reflexivity|]. split; [exact Hnone|].
  apply (makeKubeconfig_unmatched_alias_panics "/home/bob/.kconf" output (bob ["nope"])
           bobListing ltac:(vm_compute; reflexivity) "nope" []
           {| strconv.Func := "Atoi"; strconv.Num := "nope"; strconv.Err_ := strconv.ErrSyntax |});
    [vm_compute; reflexivity | exact Hnone].
Defined.

Lemma makeKubeconfig_index_in_range_witness :
  listSymDir "/home/bob/.kconf" (bob ["2"]) = (Done (bobListing, None), bob ["2"]) /\
  strconv.Atoi "2" = (2, None) /\
  1 <= 2 <= len bobListing /\
  setKubeconfig "/home/bob/.kconf" ["2"] (bob ["2"]) = output "/home/bob/.kconf/my" (bob ["2"]).
Proof.
  assert (1 <= 2 <= len bobListing) as Hi by (unfold len; simpl; lia).
  split; [vm_compute; reflexivity|]. split; [vm_compute; reflexivity|]. split; [exact Hi|].
  destruct (makeKubeconfig_index_in_range "/home/bob/.kconf" output (bob ["2"]) bobListing
              ltac:(vm_compute; reflexivity) "2" [] 2) as [(file & Hfile & Hrun) _];
    [vm_compute; reflexivity | exact Hi |].
  injection Hfile as <-. exact Hrun.
Defined.

(** Whatever the callback, [makeKubeconfig] either returns by itself, the
    world untouched, or hands the path of one listed entry to the callback.
    It returns [nil] by itself only when the listing failed. *)
Lemma makeKubeconfig_cases (configPath : string) (args : list string)
    (result : string -> Go error) (w : World) :
  (exists r, makeKubeconfig configPath args result w = (r, w) /\
     (r = Done None -> exists r' e, listSymDir configPath w = (Done (r', Some e), w))) \/
  (exists files file,
     listSymDir configPath w = (Done (files, None), w) /\ file ∈ files /\
     makeKubeconfig configPath args result w =
       result (path.Join [configPath; fs.Name file]) w).
Proof.
  destruct args as [|a0 rest].
  { left. eexists. split; [reflexivity|]. done. }
  destruct (listSymDir_reads configPath w) as [[files [e|]] Hlist].
  { left. exists (Done None). split; [|by eauto].
    unfold makeKubeconfig.
    rewrite bool_decide_eq_false_2 by (unfold len; simpl; lia).
    by run Hlist. }
  rewrite (makeKubeconfig_listed _ _ _ _ Hlist).
  destruct (match (strconv.Atoi a0).2 with Some _ => _ | None => None end) as [file|] eqn:Hnamed.
  { right. exists files, file. split; [done|]. split; [|done].
    destruct (strconv.Atoi a0).2; [|done].
    apply List.find_some in Hnamed as [Hin _]. by apply list_elem_of_In. }
  destruct (bool_decide _ || bool_decide _) eqn:Hrange.
  { left. eexists. split; [reflexivity|]. done. }
  apply orb_false_iff in Hrange as [Hneg Hbig].
  apply bool_decide_eq_false in Hneg. apply bool_decide_eq_false in Hbig.
  destruct (decide ((strconv.Atoi a0).1 = 0)) as [Hzero|Hpos].
  { left. eexists. split.
    - apply bind_panic, index_out. lia.
    - done. }
  destruct (lookup_lt_is_Some_2 files (Z.to_nat ((strconv.Atoi a0).1 - 1))) as [file Hfile].
  { unfold len in Hbig. lia. }
  right. exists files, file. split; [done|]. split.
  - by eapply list_elem_of_lookup_2.
  - assert (0 <= (strconv.Atoi a0).1 - 1) as Hi by lia.
    by run (index_ok files _ file w Hi Hfile).
Qed.

(** C3 (defect of the code): when the store cannot be listed,
    [makeKubeconfig] returns [nil] ([return nil] where [listKubeconfigs]
    has [return err]): Set and Remove report success and do nothing, where
    the claim asks for the error of the listing. *)
Theorem makeKubeconfig_listing_error_dropped (configPath : string) (args : list string)
    (result : string -> Go error) (w : World) (files : list fs.FileInfo) (e : error_value) :
  args ≠ [] ->
  listSymDir configPath w = (Done (files, Some e), w) ->
  makeKubeconfig configPath args result w = (Done None, w).
Proof.
  intros Hargs Hlist. unfold makeKubeconfig.
  rewrite bool_decide_eq_false_2 by (destruct args; [done|unfold len; simpl; lia]).
  by run Hlist.
Qed.

Lemma makeKubeconfig_listing_error_dropped_witness :
  ["1"] ≠ ([] : list string) /\
  listSymDir "/srv/prod.yml" (bob ["-r"; "1"]) =
    (Done ([], Some (PathError "readdirent" "/srv/prod.yml" ENOTDIR)), bob ["-r"; "1"]) /\
  removeKubeconfig "/srv/prod.yml" ["1"] (bob ["-r"; "1"]) = (Done None, bob ["-r"; "1"]).
Proof.
  split; [done|]. split; [vm_compute; reflexivity|].
  apply (makeKubeconfig_listing_error_dropped "/srv/prod.yml" ["1"] remove (bob ["-r"; "1"]) []
           (PathError "readdirent" "/srv/prod.yml" ENOTDIR));
    [done | vm_compute; reflexivity].
Defined.

(** ** Selecting the operation *)

Lemma bind_done_inv {A B} (m : Go A) (k : A -> Go B) (w w' : World) (b : B) :
  (m ≫= k) w = (Done b, w') -> exists a w1, m w = (Done a, w1) /\ k a w1 = (Done b, w').
Proof.
  unfold mbind, Go_bind. destruct (m w) as [[a|p|code] w1]; [eauto|done|done].
Qed.

(** [flag.Parse] returns only when the command line starts with the program
    name and [parse] accepts what follows. *)
Lemma Parse_done (f0 f : flag.FlagSet) (w w' : World) :
  flag.Parse f0 w = (Done f, w') ->
  w' = w /\ exists prog rest left,
    w_args w = prog :: rest /\ flag.parse f0 rest = inr (f, left).
Proof.
  unfold flag.Parse. intros H.
  apply bind_done_inv in H as (args & w1 & Hargs & H).
  injection Hargs as <- <-.
  apply bind_done_inv in H as (arguments & w1 & Hslice & H).
  destruct (w_args w) as [|prog rest]; [done|].
  unfold sliceFrom in Hslice.
  rewrite bool_decide_eq_true_2 in Hslice by (cbn [length]; lia).
  change (drop (Z.to_nat 1) (prog :: rest)) with rest in Hslice.
  injection Hslice as <- <-.
  destruct (flag.parse f0 rest) as [code|[f' left]] eqn:Hparse; [done|].
  injection H as <- <-. split; [done|]. by exists prog, rest, left.
Qed.

(** What [Config.Flags] leaves in the configuration: [Ops] has one bit for
    each flag that parsing set, and an operation is chosen by the number of
    arguments exactly when [Ops] is 0. *)
Lemma Flags_done (w w' : World) (c : Config) :
  Flags zeroConfig w = (Done c, w') ->
  w' = w /\ exists prog rest f left,
    w_args w = prog :: rest /\ flag.parse kconfFlags rest = inr (f, left) /\
    let a := flag.value f "a" in let s := flag.value f "s" in
    let l := flag.value f "l" in let r := flag.value f "r" in
    Ops c = Z.b2z a + 2 * Z.b2z s + 4 * Z.b2z l + 8 * Z.b2z r /\
    (Ops c ≠ 0 -> Add c = a /\ Set_ c = s /\ List_ c = l /\ Remove c = r) /\
    (Ops c = 0 ->
       Add c = bool_decide (len rest = 2) /\ Set_ c = bool_decide (len rest = 1) /\
       List_ c = bool_decide (len rest = 0) /\ Remove c = false).
Proof.
  unfold Flags. intros H.
  apply bind_done_inv in H as (f & w1 & HP & H).
  apply Parse_done in HP as (-> & prog & rest & left & Hargs & Hparse).
  split; [|exists prog, rest, f, left; split; [done|]; split; [done|]]; cbv zeta in *;
    set (a := flag.value f "a") in *; set (s := flag.value f "s") in *;
    set (l := flag.value f "l") in *; set (r := flag.value f "r") in *;
    clearbody a s l r.
  all: destruct a, s, l, r; cbn in H.
  all: try (injection H as <- <-; cbn; first [done | repeat split; try done; intros; done]).
  all: rewrite bool_decide_eq_true_2 in H by done.
  all: unfold mbind, Go_bind, os.Args in H; rewrite Hargs in H.
  all: unfold len in *; cbn [length] in H.
  all: repeat case_bool_decide; injection H as <- <-; try done.
  all: cbn; repeat split; intros; try done.
  all: repeat case_bool_decide; try done; try lia.
Qed.

(** [Config.Flags] returns on every command line that [parse] accepts. *)
Lemma Flags_run (w : World) (prog : string) (rest left : list string) (f : flag.FlagSet) :
  w_args w = prog :: rest ->
  flag.parse kconfFlags rest = inr (f, left) ->
  exists c, Flags zeroConfig w = (Done c, w).
Proof.
  intros Hargs Hparse.
  assert (flag.Parse kconfFlags w = (Done f, w)) as HP.
  { unfold flag.Parse, mbind, Go_bind, os.Args, sliceFrom. rewrite Hargs.
    rewrite bool_decide_eq_true_2 by (cbn [length]; lia).
    change (drop (Z.to_nat 1) (prog :: rest)) with rest.
    unfold mret, Go_ret. by rewrite Hparse. }
  unfold Flags. fold kconfFlags. run HP. cbv zeta.
  match goal with |- context [bool_decide (Ops ?c = 0)] => generalize c end.
  intros c. case_bool_decide; [|by eexists].
  unfold mbind, Go_bind, os.Args. repeat case_bool_decide; by eexists.
Qed.

(** Every combination of the four flags is the outcome of some command line. *)
Lemma every_combination_parses (a s l r : bool) :
  exists rest f, flag.parse kconfFlags rest = inr (f, []) /\
    flag.value f "a" = a /\ flag.value f "s" = s /\
    flag.value f "l" = l /\ flag.value f "r" = r.
Proof.
  exists ((if a then ["-a"] else []) ++ (if s then ["-s"] else []) ++
          (if l then ["-l"] else []) ++ (if r then ["-r"] else [])).
  destruct a, s, l, r; eexists; (split; [vm_compute; reflexivity|]); by vm_compute.
Qed.

(** C5, as amended: when parsing has set none of the four flags ([Ops] is
    0), the operation follows from the number of command-line arguments after
    the program name, which are also the arguments handed to the handler:
    none selects List, one selects Set, two select Add; with three or more no
    operation is selected and the handler is the one that does nothing and
    returns [nil].  Every argument counts, the terminator [--] as well. *)
Theorem default_operation (w w' : World) (c : Config) :
  Flags zeroConfig w = (Done c, w') ->
  Ops c = 0 ->
  exists prog args,
    w_args w = prog :: args /\ Args c w' = (Done args, w') /\
    (len args = 0 -> Handler c = listKubeconfigs) /\
    (len args = 1 -> Handler c = setKubeconfig) /\
    (len args = 2 -> Handler c = addKubeconfig) /\
    (3 <= len args -> Handler c = noop) /\
    forall configPath a w0, noop configPath a w0 = (Done None, w0).
Proof.
  intros HF Hops.
  apply Flags_done in HF as (-> & prog & rest & f & left & Hargs & _ & _ & _ & Hdef).
  destruct (Hdef Hops) as (HAdd & HSet & HList & HRemove).
  exists prog, rest. split; [done|]. split.
  { unfold Args, mbind, Go_bind, os.Args, sliceFrom. rewrite Hargs, Hops.
    rewrite bool_decide_eq_true_2 by done.
    by rewrite bool_decide_eq_true_2 by (cbn [length]; lia). }
  unfold Handler. rewrite HAdd, HSet, HList, HRemove.
  repeat split; try done; intros Hlen; repeat case_bool_decide; try done; lia.
Qed.

Lemma default_operation_witness :
  Flags zeroConfig (bob ["2"]) = (Done (withSet true zeroConfig), bob ["2"]) /\
  Ops (withSet true zeroConfig) = 0 /\
  Handler (withSet true zeroConfig) = setKubeconfig.
Proof.
  split; [vm_compute; reflexivity|]. split; [reflexivity|].
  destruct (default_operation (bob ["2"]) (bob ["2"]) (withSet true zeroConfig))
    as (prog & args & Hargs & _ & _ & Hone & _); [vm_compute; reflexivity | reflexivity |].
  injection Hargs as <- <-. by apply Hone.
Defined.

(** C5 as stated fails: in [kconf -- 2] no flag is set and [2] is the one
    argument that parsing leaves, yet the operation is Add, not Set, because
    the program counts [--] too. *)
Lemma default_operation_terminator :
  flag.parse kconfFlags ["--"; "2"] = inr (kconfFlags, ["2"]) /\
  Flags zeroConfig (bob ["--"; "2"]) = (Done (withAdd true zeroConfig), bob ["--"; "2"]) /\
  Ops (withAdd true zeroConfig) = 0 /\
  Handler (withAdd true zeroConfig) = addKubeconfig /\
  Handler (withAdd true zeroConfig) ≠ setKubeconfig.
Proof.
  split; [vm_compute; reflexivity|]. split; [vm_compute; reflexivity|].
  split; [reflexivity|]. split; [reflexivity|].
  intros H.
  assert (Handler (withAdd true zeroConfig) "/home/bob/.kconf" ["--"; "2"] (bob []) =
          setKubeconfig "/home/bob/.kconf" ["--"; "2"] (bob [])) as Hrun by (by rewrite H).
  vm_compute in Hrun. discriminate.
Qed.

(** C6: whatever values [a], [s], [l], [r] parsing gives the four flags,
    [Validate] accepts the configuration exactly when at most one of them is
    set; when two or more are set, [main] prints the validation error and
    exits with status 1, and the world it leaves differs from the initial one
    in the output only: no handler has run and the file system is as before. *)
Theorem Validate_at_most_one (a s l r : bool) (w : World) (prog : string)
    (rest left : list string) (f : flag.FlagSet) :
  w_args w = prog :: rest ->
  flag.parse kconfFlags rest = inr (f, left) ->
  flag.value f "a" = a -> flag.value f "s" = s ->
  flag.value f "l" = l -> flag.value f "r" = r ->
  exists c, Flags zeroConfig w = (Done c, w) /\
    (Validate c = true <-> flagsSet a s l r <= 1) /\
    (2 <= flagsSet a s l r ->
     main w = (Exit 1, set_stdout (w_stdout w +:+ "error validating flags" +:+ LF) w)).
Proof.
  intros Hargs Hparse Ha Hs Hl Hr.
  destruct (Flags_run _ _ _ _ _ Hargs Hparse) as [c HF]. exists c. split; [done|].
  destruct (Flags_done _ _ _ HF) as (_ & prog' & rest' & f' & left' & Hargs' & Hparse' & Hops & _).
  rewrite Hargs in Hargs'. injection Hargs' as <- <-.
  rewrite Hparse in Hparse'. injection Hparse' as <- <-.
  cbv zeta in Hops. rewrite Ha, Hs, Hl, Hr in Hops.
  assert (Validate c = true <-> flagsSet a s l r <= 1) as HV.
  { unfold Validate. rewrite Hops. destruct a, s, l, r; by vm_compute. }
  split; [done|]. intros Htwo.
  unfold main. run HF.
  destruct (Validate c); [lia|]. reflexivity.
Qed.

Lemma Validate_at_most_one_witness :
  w_args (bob ["-a"; "-s"; "x"]) = "kconf" :: ["-a"; "-s"; "x"] /\
  2 <= flagsSet true true false false /\
  main (bob ["-a"; "-s"; "x"]) =
    (Exit 1,
     set_stdout (w_stdout (bob ["-a"; "-s"; "x"]) +:+ "error validating flags" +:+ LF)
       (bob ["-a"; "-s"; "x"])).
Proof.
  split; [reflexivity|]. split; [by vm_compute|].
  edestruct (Validate_at_most_one true true false false (bob ["-a"; "-s"; "x"])
               "kconf" ["-a"; "-s"; "x"]) as (c & _ & _ & Hmain);
    [reflexivity | vm_compute; reflexivity | by vm_compute .. |].
  apply Hmain. by vm_compute.
Defined.

(** ** Adding an entry *)

Lemma beforeFirst_spec (c : ascii) (s : string) :
  (c ∉ chars (beforeFirst c s)) /\
  exists rest, s = beforeFirst c s +:+ rest /\ (rest = "" \/ exists r, rest = String c r).
Proof.
  induction s as [|x s [IHn (rest & IHs & IHr)]]; simpl.
  - split; [apply not_elem_of_nil|]. exists "". auto.
  - case_bool_decide as Hx; simpl.
    + subst x. split; [apply not_elem_of_nil|]. exists (String c s). eauto.
    + split.
      * rewrite not_elem_of_cons. split; [congruence|done].
      * exists rest. split; [|done].
        change (String x s = String x (beforeFirst c s +:+ rest)). by f_equal.
Qed.

(** The first piece [strings.Split] cuts at dots. *)
Lemma splitFrom_dot (s : string) :
  (strings.splitFrom "." s 0).1 = beforeFirst "." s.
Proof.
  induction s as [|x s IH]; [done|].
  cbn [strings.splitFrom beforeFirst String.prefix].
  destruct (ascii_dec "." x) as [<-|Hne].
  - rewrite bool_decide_eq_true_2 by done. by destruct s.
  - rewrite bool_decide_eq_false_2 by congruence.
    destruct (strings.splitFrom "." s 0) as [p ps]. simpl in *. by rewrite IH.
Qed.

Lemma Split_dot_first (s : string) (w : World) :
  index (strings.Split s ".") 0 w = (Done (beforeFirst "." s), w).
Proof.
  unfold strings.Split. rewrite <- splitFrom_dot.
  destruct (strings.splitFrom "." s 0) as [p ps]. reflexivity.
Qed.

Lemma exists_eq (p : string) (w : World) :
  exists_ p w =
  (Done (match os.stat w p with inl ENOENT => false | _ => true end), w).
Proof.
  unfold exists_, os.Stat, mbind, Go_bind, mret, Go_ret.
  destruct (os.stat w p) as [[]|[k n]]; reflexivity.
Qed.

(** The alias is the second argument, or is derived from the first. *)
Lemma addKubeconfig_alias (a0 : string) (rest : list string) (w : World) :
  (if bool_decide (len (a0 :: rest) = 1)
   then index (a0 :: rest) 0 ≫= fun a0 => index (strings.Split (path.Base a0) ".") 0
   else index (a0 :: rest) 1) w = (Done (aliasOf a0 rest), w).
Proof.
  destruct rest as [|a1 rest].
  - rewrite bool_decide_eq_true_2 by done.
    run (index_ok [a0] 0 a0 w ltac:(lia) eq_refl).
    apply Split_dot_first.
  - rewrite bool_decide_eq_false_2 by (unfold len; cbn [length]; lia).
    by apply index_ok.
Qed.

(** [addKubeconfig] from the point where the alias is known. *)
Lemma addKubeconfig_eq (configPath a0 : string) (rest : list string) (w : World) :
  addKubeconfig configPath (a0 :: rest) w =
  (let slink := aliasOf a0 rest in
   let symlink := configPath +:+ "/" +:+ slink in
   filepath.Abs a0 ≫= fun '(file, err) =>
   match err with
   | Some _ => mret err
   | None =>
       exists_ file ≫= fun found =>
       if negb found then mret (fmt.Errorf "kubeconfig not found: %s" [vString file]) else
       exists_ symlink ≫= fun taken : bool =>
       if taken then mret (fmt.Errorf "kubeconfig already exists: %q" [vString slink]) else
       os.Symlink file symlink ≫= fun err =>
       match err with
       | Some _ => mret err
       | None =>
           fmt.Printf ("%s -> %s added" +:+ LF) [vString slink; vString file];;
           mret None
       end
   end) w.
Proof.
  unfold addKubeconfig.
  rewrite bool_decide_eq_false_2 by (unfold len; cbn [length]; lia).
  run (addKubeconfig_alias a0 rest w).
  by run (index_ok (a0 :: rest) 0 a0 w ltac:(lia) eq_refl).
Qed.

(** C7, as amended: when the file argument is an existing file and
    something in the store already has the alias, Add fails and the world is
    as before: no link is created or replaced and nothing is printed.  The
    error is "kubeconfig already exists" when [exists] holds of the path of
    the entry; when it does not (the entry is a link whose target is gone),
    the error is that of [os.Symlink], which refuses to replace the link. *)
Theorem addKubeconfig_alias_taken (configPath a0 : string) (rest : list string)
    (w : World) (file k : string) (n : node) :
  filepath.Abs a0 w = (Done (file, None), w) ->
  exists_ file w = (Done true, w) ->
  os.lstat w (configPath +:+ "/" +:+ aliasOf a0 rest) = inr (k, n) ->
  exists taken,
    exists_ (configPath +:+ "/" +:+ aliasOf a0 rest) w = (Done taken, w) /\
    addKubeconfig configPath (a0 :: rest) w =
      (Done (if taken
             then fmt.Errorf "kubeconfig already exists: %q" [vString (aliasOf a0 rest)]
             else Some (LinkError "symlink" file
                          (configPath +:+ "/" +:+ aliasOf a0 rest) EEXIST)),
       w).
Proof.
  intros Habs Hfile Hentry.
  rewrite addKubeconfig_eq. cbv zeta.
  run Habs. run Hfile. cbn [negb].
  set (symlink := configPath +:+ "/" +:+ aliasOf a0 rest) in *.
  pose proof (exists_eq symlink w) as Htaken.
  set (taken := match os.stat w symlink with inl ENOENT => false | _ => true end) in *.
  exists taken. split; [done|].
  run Htaken. destruct taken; [done|].
  assert (os.Symlink file symlink w =
          (Done (Some (LinkError "symlink" file symlink EEXIST)), w)) as Hsym.
  { unfold os.Symlink, os.cannotCreate. unfold os.lstat in Hentry.
    destruct (os.abspath w symlink) as [k'|]; [|done].
    destruct (w_files w !! k') as [n'|]; [|done]. done. }
  by run Hsym.
Qed.

Lemma addKubeconfig_alias_taken_witness :
  filepath.Abs "kube_config_cluster.yml" (bob []) =
    (Done ("/home/bob/git/kube_config_cluster.yml", None), bob []) /\
  exists_ "/home/bob/git/kube_config_cluster.yml" (bob []) = (Done true, bob []) /\
  os.lstat (bob []) "/home/bob/.kconf/my" =
    inr ("/home/bob/.kconf/my", Symlink "/home/bob/git/kube_config_cluster.yml") /\
  addKubeconfig "/home/bob/.kconf" ["kube_config_cluster.yml"; "my"] (bob []) =
    (Done (Some (errorString ("kubeconfig already exists: " +:+ strconv.Quote "my"))), bob []).
Proof.
  split; [vm_compute; reflexivity|]. split; [vm_compute; reflexivity|].
  split; [vm_compute; reflexivity|].
  destruct (addKubeconfig_alias_taken "/home/bob/.kconf" "kube_config_cluster.yml" ["my"]
              (bob []) "/home/bob/git/kube_config_cluster.yml" "/home/bob/.kconf/my"
              (Symlink "/home/bob/git/kube_config_cluster.yml"))
    as (taken & Htaken & Hadd); [vm_compute; reflexivity ..|].
  rewrite exists_eq in Htaken. injection Htaken as <-. exact Hadd.
Defined.

(** C7 as stated fails: the alias [my] is taken, and Add with a file that
    does not exist reports that the file was not found, not that the alias
    exists. *)
Lemma addKubeconfig_alias_taken_file_missing :
  os.lstat (bob []) "/home/bob/.kconf/my" =
    inr ("/home/bob/.kconf/my", Symlink "/home/bob/git/kube_config_cluster.yml") /\
  addKubeconfig "/home/bob/.kconf" ["/tmp/none.yml"; "my"] (bob []) =
    (Done (Some (errorString "kubeconfig not found: /tmp/none.yml")), bob []) /\
  addKubeconfig "/home/bob/.kconf" ["/tmp/none.yml"; "my"] (bob []) ≠
    (Done (fmt.Errorf "kubeconfig already exists: %q" [vString "my"]), bob []).
Proof.
  split; [vm_compute; reflexivity|]. split; [vm_compute; reflexivity|].
  vm_compute. discriminate.
Qed.

(** An entry whose target is gone: [exists] does not see it, and the link is
    still not replaced. *)
Example addKubeconfig_dangling :
  addKubeconfig "/home/bob/.kconf" ["kube_config_cluster.yml"; "prod"] (bobDangling []) =
    (Done (Some (LinkError "symlink" "/home/bob/git/kube_config_cluster.yml"
                   "/home/bob/.kconf/prod" EEXIST)), bobDangling []).
Proof. vm_compute. reflexivity. Qed.

Example addKubeconfig_derived_alias_bob :
  snd (addKubeconfig "/home/bob/.kconf" ["kube_config_cluster.yml"] (bob [])) =
  set_stdout
    ("kube_config_cluster -> /home/bob/git/kube_config_cluster.yml added" +:+ LF)
    (set_files
       (<["/home/bob/.kconf/kube_config_cluster" :=
            Symlink "/home/bob/git/kube_config_cluster.yml"]> bobFiles)
       (bob [])).
Proof. vm_compute. reflexivity. Qed.

(** ** Setting and removing *)

Lemma output_eq (linkPath : string) (w : World) :
  output linkPath w =
  (Done None, set_stdout (w_stdout w +:+ "export KUBECONFIG=" +:+ linkPath +:+ LF) w).
Proof. reflexivity. Qed.

(** The value [strconv.Atoi] returns with an error: 0, or the end of the
    [int] range that was passed. *)
Lemma Atoi_error_value (s : string) (idx : Z) (e : strconv.NumError) :
  strconv.Atoi s = (idx, Some e) -> idx = 0 \/ idx = 2 ^ 63 - 1 \/ idx = - 2 ^ 63.
Proof.
  unfold strconv.Atoi. case_bool_decide as Hlen.
  - destruct (chars s) as [|c0 rest]; [intros [= <-]; auto|].
    destruct (_ && _); [intros [= <-]; auto|].
    destruct (strconv.atoiFast _ 0); [done|intros [= <-]; auto].
  - destruct (strconv.ParseInt (chars s)) as [i64 err] eqn:HP.
    destruct err as [err|]; [|done]. cbn. intros [= <- _].
    unfold strconv.ParseInt in HP. destruct (chars s) as [|c rest]; [injection HP as <-; auto|].
    destruct (strconv.ParseUint _) as [un [[]|]];
      repeat match type of HP with
             | (if ?b then _ else _) = _ => destruct b
             end; injection HP as <-; try done; auto.
Qed.

Section Resolved.

Variables (configPath : string) (result : string -> Go error).
Variables (w : World) (files : list fs.FileInfo).
Hypothesis listed : listSymDir configPath w = (Done (files, None), w).

(** [makeKubeconfig] hands the callback the entry the selector resolves to. *)
Lemma makeKubeconfig_resolved (a0 : string) (rest : list string) (file : fs.FileInfo) :
  resolve a0 files = Some file ->
  makeKubeconfig configPath (a0 :: rest) result w =
    result (path.Join [configPath; fs.Name file]) w.
Proof.
  unfold resolve. rewrite (makeKubeconfig_listed _ _ _ _ listed).
  destruct (strconv.Atoi a0) as [idx [e|]]; cbn [fst snd].
  - by intros ->.
  - case_bool_decide as Hi; [|done]. intros Hfile.
    rewrite (bool_decide_eq_false_2 (idx < 0)) by lia.
    rewrite (bool_decide_eq_false_2 (idx > len files)) by lia.
    cbn [orb]. assert (0 <= idx - 1) as Hi' by lia.
    by run (index_ok files _ file w Hi' Hfile).
Qed.

(** When the selector resolves to nothing the callback is not run. *)
Lemma makeKubeconfig_unresolved (a0 : string) (rest : list string) :
  len files < 2 ^ 63 - 1 ->
  resolve a0 files = None ->
  exists r, makeKubeconfig configPath (a0 :: rest) result w = (r, w).
Proof.
  intros Hlen. unfold resolve. rewrite (makeKubeconfig_listed _ _ _ _ listed).
  destruct (strconv.Atoi a0) as [idx [e|]] eqn:Hidx; cbn [fst snd].
  - intros ->. apply Atoi_error_value in Hidx.
    destruct (bool_decide _ || bool_decide _) eqn:Hrange; [by eexists|].
    apply orb_false_iff in Hrange as [Hneg Hbig].
    apply bool_decide_eq_false in Hneg. apply bool_decide_eq_false in Hbig.
    assert (idx = 0) as -> by lia.
    eexists. apply bind_panic, index_out. lia.
  - intros Hnone.
    destruct (bool_decide _ || bool_decide _) eqn:Hrange; [by eexists|].
    apply orb_false_iff in Hrange as [Hneg Hbig].
    apply bool_decide_eq_false in Hneg. apply bool_decide_eq_false in Hbig.
    case_bool_decide as Hi.
    + apply lookup_ge_None in Hnone. unfold len in *. lia.
    + eexists. apply bind_panic, index_out. lia.
Qed.

End Resolved.

(** C9: Set never changes the store: whatever the arguments and however it
    ends, the world it leaves differs from the one it found in the output
    only.  When the selector resolves to an entry of the listing, Set returns
    [nil] and the output has grown by exactly the line
    [export KUBECONFIG=<path>], the path being that of the resolved entry in
    the store.  When the selector resolves to nothing, when there is no
    argument and when the store cannot be listed, nothing is printed.  (A Go
    slice has fewer than [2^63 - 1] elements.) *)
Theorem setKubeconfig_effect (configPath : string) (args : list string) (w : World) :
  exists r w',
    setKubeconfig configPath args w = (r, w') /\
    w' = set_stdout (w_stdout w') w /\
    (w_stdout w' = w_stdout w \/
     exists files file,
       listSymDir configPath w = (Done (files, None), w) /\ file ∈ files /\
       r = Done None /\
       w_stdout w' =
         w_stdout w +:+ "export KUBECONFIG=" +:+ path.Join [configPath; fs.Name file] +:+ LF) /\
    (forall selector rest files file,
       args = selector :: rest ->
       listSymDir configPath w = (Done (files, None), w) ->
       resolve selector files = Some file ->
       r = Done None /\
       w' = set_stdout (w_stdout w +:+ "export KUBECONFIG=" +:+
                        path.Join [configPath; fs.Name file] +:+ LF) w) /\
    (forall selector rest files,
       args = selector :: rest ->
       listSymDir configPath w = (Done (files, None), w) ->
       len files < 2 ^ 63 - 1 ->
       resolve selector files = None ->
       w' = w) /\
    (args = [] -> w' = w) /\
    (forall files e, listSymDir configPath w = (Done (files, Some e), w) -> w' = w).
Proof.
  assert (exists r w',
    setKubeconfig configPath args w = (r, w') /\
    w' = set_stdout (w_stdout w') w /\
    (w_stdout w' = w_stdout w \/
     exists files file,
       listSymDir configPath w = (Done (files, None), w) /\ file ∈ files /\
       r = Done None /\
       w_stdout w' =
         w_stdout w +:+ "export KUBECONFIG=" +:+ path.Join [configPath; fs.Name file] +:+ LF))
    as (r & w' & Hrun & Hframe & Hout).
  { unfold setKubeconfig.
    destruct (makeKubeconfig_cases configPath args output w)
      as [(r & Hrun & _)|(files & file & Hlist & Hin & Hrun)].
    - exists r, w. split; [done|]. split; [by destruct w|]. by left.
    - rewrite Hrun, output_eq. eexists _, _. split; [reflexivity|]. split; [done|].
      right. exists files, file. done. }
  exists r, w'. do 3 (split; [done|]). unfold setKubeconfig in Hrun.
  split; [|split; [|split]].
  - intros selector rest files file -> Hlist Hres.
    rewrite (makeKubeconfig_resolved _ _ _ _ Hlist _ _ _ Hres), output_eq in Hrun.
    by injection Hrun as <- <-.
  - intros selector rest files -> Hlist Hlen Hres.
    destruct (makeKubeconfig_unresolved _ output _ _ Hlist selector rest Hlen Hres) as [r0 H0].
    rewrite H0 in Hrun. by injection Hrun as <- <-.
  - intros ->. by injection Hrun as <- <-.
  - intros files e Hlist. destruct args as [|a0 rest]; [by injection Hrun as <- <-|].
    unfold makeKubeconfig in Hrun.
    rewrite bool_decide_eq_false_2 in Hrun by (unfold len; cbn [length]; lia).
    rewrite (bind_done _ _ _ _ _ Hlist) in Hrun. by injection Hrun as <- <-.
Qed.

Lemma setKubeconfig_effect_witness :
  listSymDir "/home/bob/.kconf" (bob []) = (Done (bobListing, None), bob []) /\
  resolve " my " bobListing = Some {| fs.Name := "my"; fs.Mode := Z.lor fs.ModeSymlink 511 |} /\
  setKubeconfig "/home/bob/.kconf" [" my "] (bob []) =
    (Done None,
     set_stdout (w_stdout (bob []) +:+ "export KUBECONFIG=" +:+
                 path.Join ["/home/bob/.kconf"; "my"] +:+ LF) (bob [])).
Proof.
  split; [vm_compute; reflexivity|]. split; [vm_compute; reflexivity|].
  destruct (setKubeconfig_effect "/home/bob/.kconf" [" my "] (bob []))
    as (r & w' & Hrun & _ & _ & Hres & _).
  destruct (Hres " my " [] bobListing {| fs.Name := "my"; fs.Mode := Z.lor fs.ModeSymlink 511 |}
              eq_refl ltac:(vm_compute; reflexivity) ltac:(vm_compute; reflexivity)) as [-> ->].
  exact Hrun.
Defined.



Example removeKubeconfig_bob :
  removeKubeconfig "/home/bob/.kconf" ["my"] (bob []) =
  (Done None,
   set_stdout ("my -> /home/bob/git/kube_config_cluster.yml removed" +:+ LF)
     (set_files (delete "/home/bob/.kconf/my" bobFiles) (bob []))).
Proof. vm_compute. reflexivity. Qed.

(** ** Whole runs *)

Example main_list :
  main (bob []) =
  (Done (), set_stdout ("  1) monit" +:+ LF +:+ "* 2) my" +:+ LF +:+ "  3) prod" +:+ LF) (bob [])).
Proof. vm_compute. reflexivity. Qed.

Example main_set :
  main (bob ["2"]) =
  (Done (), set_stdout ("export KUBECONFIG=/home/bob/.kconf/my" +:+ LF) (bob ["2"])).
Proof. vm_compute. reflexivity. Qed.

Example main_index_above :
  main (bob ["4"]) =
  (Exit 1, set_stdout ("error handling request: index out of range" +:+ LF) (bob ["4"])).
Proof. vm_compute. reflexivity. Qed.

(** [kconf 0] and [kconf nope] end in a panic: exit status 2. *)
Example main_index_zero :
  main (bob ["0"]) = (Panic (IndexOutOfRange (-1) 3), bob ["0"]) /\
  main (bob ["nope"]) = (Panic (IndexOutOfRange (-1) 3), bob ["nope"]) /\
  exitStatus (fst (main (bob ["0"]))) = 2.
Proof. vm_compute. auto. Qed.

(** With a store that cannot be listed, [kconf 1] and [kconf -r 1] print
    nothing and exit with status 0, where [kconf -l] reports the error. *)
Example main_store_not_listed :
  main (bobLost ["1"]) = (Done (), bobLost ["1"]) /\
  main (bobLost ["-r"; "1"]) = (Done (), bobLost ["-r"; "1"]) /\
  main (bobLost ["-l"]) =
    (Exit 1,
     set_stdout ("error handling request: readdirent /srv/prod.yml: not a directory" +:+ LF)
       (bobLost ["-l"])).
Proof. vm_compute. auto. Qed.

(** * Further properties of the program *)

(** ** Strings *)

Lemma string_app_assoc (a b c : string) : (a +:+ b) +:+ c = a +:+ b +:+ c.
Proof.
  induction a as [|x a IH]; [done|].
  change (String x ((a +:+ b) +:+ c) = String x (a +:+ b +:+ c)). by rewrite IH.
Qed.

Lemma string_app_nil_r (a : string) : a +:+ "" = a.
Proof.
  induction a as [|x a IH]; [done|].
  change (String x (a +:+ "") = String x a). by rewrite IH.
Qed.

Lemma chars_app (a b : string) : chars (a +:+ b) = chars a ++ chars b.
Proof.
  induction a as [|x a IH]; [done|].
  change (x :: chars (a +:+ b) = x :: (chars a ++ chars b)). by rewrite IH.
Qed.

Lemma unchars_chars (s : string) : unchars (chars s) = s.
Proof. apply string_of_list_ascii_of_string. Qed.

Lemma chars_unchars (l : list ascii) : chars (unchars l) = l.
Proof. apply list_ascii_of_string_of_list_ascii. Qed.

(** ** Listing *)

Lemma listKubeconfigs_loop (configPath current : string) (files : list fs.FileInfo)
    (i : Z) (w : World) :
  forRange files i (fun i file =>
    let star :=
      if bool_decide (path.Join [configPath; fs.Name file] = current)
      then "* " else "  " in
    fmt.Printf ("%s%d) %s" +:+ LF) [vString star; vInt (i + 1); vString (fs.Name file)]) w =
  (Done (), set_stdout (w_stdout w +:+ listLines configPath current i files) w).
Proof.
  revert i w. induction files as [|file files IH]; intros i w.
  - cbn. rewrite string_app_nil_r. by destruct w.
  - cbn [forRange]. unfold mbind at 1, Go_bind at 1.
    change (fmt.Printf _ _ w) with
      (Done (), set_stdout (w_stdout w +:+ listLine configPath current i file) w).
    cbv beta iota. rewrite IH. cbn [set_stdout w_stdout w_files w_cwd w_env w_args listLines].
    by rewrite string_app_assoc.
Qed.

(** X1: List prints one line for each entry of the listing, in its order:
    the mark, two spaces or a star and a space for the entry whose path in the
    store is the value of [KUBECONFIG], the position counted from 1, a
    parenthesis and the name; it changes nothing else and returns [nil].
    When the store cannot be listed it returns the error of the listing and
    prints nothing. *)
Theorem listKubeconfigs_output (configPath : string) (args : list string) (w : World) :
  (forall files,
     listSymDir configPath w = (Done (files, None), w) ->
     listKubeconfigs configPath args w =
       (Done None,
        set_stdout (w_stdout w +:+
                    listLines configPath (default "" (w_env w !! kubeConfigVar)) 0 files) w)) /\
  (forall files e,
     listSymDir configPath w = (Done (files, Some e), w) ->
     listKubeconfigs configPath args w = (Done (Some e), w)).
Proof.
  split.
  - intros files Hlist. unfold listKubeconfigs. run Hlist.
    unfold mbind at 1, Go_bind at 1. cbn [os.Getenv].
    unfold mbind, Go_bind. rewrite listKubeconfigs_loop. reflexivity.
  - intros files e Hlist. unfold listKubeconfigs. by run Hlist.
Qed.

Lemma listKubeconfigs_output_witness :
  listSymDir "/home/bob/.kconf" (bob []) = (Done (bobListing, None), bob []) /\
  listKubeconfigs "/home/bob/.kconf" [] (bob []) =
    (Done None,
     set_stdout ("  1) monit" +:+ LF +:+ "* 2) my" +:+ LF +:+ "  3) prod" +:+ LF) (bob [])).
Proof.
  split; [vm_compute; reflexivity|].
  apply (proj1 (listKubeconfigs_output "/home/bob/.kconf" [] (bob [])) bobListing).
  vm_compute. reflexivity.
Defined.

(** ** Resolving a selector, continued *)

(** X2: a selector that is no number selects the entry named as the
    selector without its surrounding white space, wherever the entry stands
    in the listing. *)
Theorem makeKubeconfig_by_name (configPath : string) (result : string -> Go error)
    (w : World) (files : list fs.FileInfo) (a0 : string) (rest : list string)
    (idx : Z) (e : strconv.NumError) (file : fs.FileInfo) :
  listSymDir configPath w = (Done (files, None), w) ->
  strconv.Atoi a0 = (idx, Some e) ->
  file ∈ files ->
  fs.Name file = strings.TrimSpace a0 ->
  makeKubeconfig configPath (a0 :: rest) result w =
    result (path.Join [configPath; strings.TrimSpace a0]) w.
Proof.
  intros Hlist Hidx Hin Hname.
  destruct (List.find (fun file => bool_decide (fs.Name file = strings.TrimSpace a0)) files)
    as [file'|] eqn:Hfind.
  - destruct (makeKubeconfig_alias_found _ result _ _ Hlist a0 rest idx e file' Hidx Hfind)
      as [Hname' ->].
    by rewrite Hname'.
  - apply list_elem_of_In in Hin.
    pose proof (List.find_none _ _ Hfind file Hin) as Hf. cbn in Hf.
    by rewrite bool_decide_eq_true_2 in Hf.
Qed.

Lemma makeKubeconfig_by_name_witness :
  strconv.Atoi " prod " =
    (0, Some {| strconv.Func := "Atoi"; strconv.Num := " prod "; strconv.Err_ := strconv.ErrSyntax |}) /\
  strings.TrimSpace " prod " = "prod" /\
  setKubeconfig "/home/bob/.kconf" [" prod "] (bob []) =
    output (path.Join ["/home/bob/.kconf"; strings.TrimSpace " prod "]) (bob []).
Proof.
  split; [vm_compute; reflexivity|]. split; [vm_compute; reflexivity|].
  apply (makeKubeconfig_by_name "/home/bob/.kconf" output (bob []) bobListing " prod " [] 0
           {| strconv.Func := "Atoi"; strconv.Num := " prod "; strconv.Err_ := strconv.ErrSyntax |}
           {| fs.Name := "prod"; fs.Mode := Z.lor fs.ModeSymlink 511 |});
    [vm_compute; reflexivity | vm_compute; reflexivity | | vm_compute; reflexivity].
  apply list_elem_of_In. simpl. auto.
Defined.

(** X3: an index below 0 or above the number of entries is refused with
    "index out of range"; nothing is handed to the callback and the world is
    as before. *)
Theorem makeKubeconfig_index_out_of_range (configPath : string) (result : string -> Go error)
    (w : World) (files : list fs.FileInfo) (a0 : string) (rest : list string) (idx : Z) :
  listSymDir configPath w = (Done (files, None), w) ->
  strconv.Atoi a0 = (idx, None) ->
  idx < 0 \/ len files < idx ->
  makeKubeconfig configPath (a0 :: rest) result w =
    (Done (Some (errorString "index out of range")), w).
Proof.
  intros Hlist Hidx [Hneg|Hbig].
  - by apply (makeKubeconfig_index_negative _ _ _ _ Hlist _ _ idx).
  - apply (makeKubeconfig_index_above _ _ _ _ Hlist _ _ idx); [done|lia].
Qed.

Lemma makeKubeconfig_index_out_of_range_witness :
  strconv.Atoi "4" = (4, None) /\ len bobListing < 4 /\
  removeKubeconfig "/home/bob/.kconf" ["4"] (bob []) =
    (Done (Some (errorString "index out of range")), bob []).
Proof.
  assert (len bobListing < 4) as Hbig by (unfold len; simpl; lia).
  split; [vm_compute; reflexivity|]. split; [exact Hbig|].
  apply (makeKubeconfig_index_out_of_range "/home/bob/.kconf" remove (bob []) bobListing
           "4" [] 4); [vm_compute; reflexivity | vm_compute; reflexivity | by right].
Defined.

(** ** Explicit flags *)

(** X4: when parsing has set exactly one flag, the handler is the one of
    that flag, and it is handed the command line from its third word on: the
    program name and one more word are dropped. *)
Theorem explicit_flag_operation (w w' : World) (c : Config) :
  Flags zeroConfig w = (Done c, w') ->
  Validate c = true ->
  Ops c ≠ 0 ->
  exists prog first args f left,
    w_args w = prog :: first :: args /\
    flag.parse kconfFlags (first :: args) = inr (f, left) /\
    Args c w' = (Done args, w') /\
    (flag.value f "a" = true /\ Handler c = addKubeconfig \/
     flag.value f "s" = true /\ Handler c = setKubeconfig \/
     flag.value f "l" = true /\ Handler c = listKubeconfigs \/
     flag.value f "r" = true /\ Handler c = removeKubeconfig).
Proof.
  intros HF HV Hops.
  apply Flags_done in HF as (-> & prog & rest & f & left & Hargs & Hparse & Hbits & Hexp & _).
  destruct (Hexp Hops) as (HAdd & HSet & HList & HRemove).
  destruct rest as [|first args].
  { injection Hparse as <- <-. by destruct Hops. }
  exists prog, first, args, f, left. split; [done|]. split; [done|]. split.
  { unfold Args, mbind, Go_bind, os.Args, sliceFrom. rewrite Hargs.
    rewrite bool_decide_eq_false_2 by done.
    by rewrite bool_decide_eq_true_2 by (cbn [length]; lia). }
  unfold Validate in HV. unfold Handler. rewrite HAdd, HSet, HList, HRemove.
  cbv zeta in Hbits. rewrite Hbits in HV.
  destruct (flag.value f "a"), (flag.value f "s"), (flag.value f "l"), (flag.value f "r");
    try (by vm_compute in HV); auto 10.
Qed.

Lemma explicit_flag_operation_witness :
  Flags zeroConfig (bob ["-r"; "my"]) =
    (Done {| Add := false; Set_ := false; List_ := false; Remove := true; Ops := 8 |},
     bob ["-r"; "my"]) /\
  Args {| Add := false; Set_ := false; List_ := false; Remove := true; Ops := 8 |}
    (bob ["-r"; "my"]) = (Done ["my"], bob ["-r"; "my"]).
Proof.
  split; [vm_compute; reflexivity|].
  destruct (explicit_flag_operation (bob ["-r"; "my"]) (bob ["-r"; "my"])
              {| Add := false; Set_ := false; List_ := false; Remove := true; Ops := 8 |})
    as (prog & first & args & f & left & Hargs & _ & HArgs & _);
    [vm_compute; reflexivity | reflexivity | done |].
  injection Hargs as <- <- <-. exact HArgs.
Defined.

(** ** The store path *)

Lemma strlen_zero (s : string) : strlen s = 0 <-> s = "".
Proof. unfold strlen. destruct s; cbn; split; try done; lia. Qed.

Lemma exists_after_Mkdir (name : string) (perm : Z) (w w' : World) :
  os.Mkdir name perm w = (Done None, w') ->
  exists k, os.abspath w name = Some k /\ w_files w !! k = None /\
    w' = set_files (<[k := Directory]> (w_files w)) w /\
    exists_ name w' = (Done true, w').
Proof.
  unfold os.Mkdir, os.cannotCreate.
  destruct (os.abspath w name) as [k|] eqn:Hk; [|done].
  destruct (w_files w !! k) eqn:Hfree; [done|].
  destruct (os.follow 40 (w_files w) (path.Dir k)) as [e|[d [| |t]]]; try done.
  intros [= <-]. exists k. repeat (split; [done|]).
  rewrite exists_eq. unfold os.stat, os.abspath in *. cbn [w_cwd w_files set_files].
  rewrite Hk. cbn [os.follow]. by rewrite lookup_insert_eq.
Qed.

(** [configPath] by the path it decides on. *)
Lemma configPath_eq (w : World) :
  configPath w =
  match storePath w with
  | None => (Done ("", Some (errorString "$HOME is not defined")), w)
  | Some cp =>
      (exists_ cp ≫= fun found : bool =>
       if found then mret (cp, None)
       else os.Mkdir cp confDirFileMode ≫= fun err => mret (cp, err)) w
  end.
Proof.
  unfold configPath, storePath, os.UserHomeDir, os.Getenv, mbind, Go_bind, mret, Go_ret.
  cbv zeta.
  set (override := strings.TrimSpace (default "" (w_env w !! confPathVar))).
  set (home := default "" (w_env w !! "HOME")).
  destruct (decide (override = "")) as [Ho|Ho].
  - rewrite (bool_decide_eq_true_2 (strlen override = 0)) by (by apply strlen_zero).
    rewrite (bool_decide_eq_false_2 (override ≠ "")) by (by intros []).
    by destruct (decide (home = "")) as [Hh|Hh];
      [rewrite !(bool_decide_eq_false_2 (home ≠ "")) by (by intros [])
      |rewrite !(bool_decide_eq_true_2 (home ≠ "")) by done].
  - rewrite (bool_decide_eq_false_2 (strlen override = 0)) by (by rewrite strlen_zero).
    by rewrite (bool_decide_eq_true_2 (override ≠ "")) by done.
Qed.

(** What [configPath] does, by the path it decides on. *)
Lemma configPath_cases (w : World) :
  match storePath w with
  | None => configPath w = (Done ("", Some (errorString "$HOME is not defined")), w)
  | Some cp =>
      exists err w', configPath w = (Done (cp, err), w') /\
        (w' = w \/
         exists k, err = None /\ os.abspath w cp = Some k /\ w_files w !! k = None /\
           w' = set_files (<[k := Directory]> (w_files w)) w) /\
        (exists_ cp w = (Done true, w) -> err = None /\ w' = w) /\
        (err = None -> configPath w' = (Done (cp, None), w'))
  end.
Proof.
  rewrite configPath_eq. destruct (storePath w) as [cp|] eqn:Hsp; [|done].
  pose proof (exists_eq cp w) as Hex. run Hex.
  destruct (match os.stat w cp with inl ENOENT => false | _ => true end) eqn:Hfound.
  - exists None, w. split; [done|]. split; [by left|]. split; [done|].
    intros _. rewrite configPath_eq, Hsp. by run Hex.
  - destruct (os.Mkdir cp confDirFileMode w) as [[[e|]|p|c] w1] eqn:Hmk;
      try (unfold os.Mkdir in Hmk; destruct (os.abspath w cp); [destruct (os.cannotCreate w _)|]; done).
    + assert (w1 = w) as ->.
      { unfold os.Mkdir in Hmk. destruct (os.abspath w cp); [destruct (os.cannotCreate w _)|];
          by injection Hmk. }
      run Hmk. exists (Some e), w. split; [done|]. split; [by left|].
      split; [|done]. rewrite Hex. done.
    + run Hmk. exists None, w1.
      destruct (exists_after_Mkdir _ _ _ _ Hmk) as (k & Hk & Hfree & -> & Hnow).
      split; [done|]. split; [right; by exists k|]. split.
      * rewrite Hex. done.
      * intros _. rewrite configPath_eq.
        assert (storePath (set_files (<[k:=Directory]> (w_files w)) w) = Some cp) as ->
          by exact Hsp.
        by run Hnow.
Qed.

(** X5: [configPath] takes the store path from [KCONF_LIBRARY_PATH] without
    its surrounding white space, or, when that is empty, [.kconf] under
    [HOME]; when both are empty it fails with "$HOME is not defined".  It
    leaves the world as it is, or creates the one directory of the store at a
    path that named nothing; when the path exists it changes nothing. *)
Theorem configPath_store (w : World) :
  match storePath w with
  | None => configPath w = (Done ("", Some (errorString "$HOME is not defined")), w)
  | Some cp =>
      exists err w', configPath w = (Done (cp, err), w') /\
        (w' = w \/
         exists k, err = None /\ os.abspath w cp = Some k /\ w_files w !! k = None /\
           w' = set_files (<[k := Directory]> (w_files w)) w) /\
        (exists_ cp w = (Done true, w) -> err = None /\ w' = w)
  end.
Proof.
  pose proof (configPath_cases w) as H. destruct (storePath w) as [cp|]; [|done].
  destruct H as (err & w' & Hrun & Hw & Hex & _). by exists err, w'.
Qed.

(** X6: once [configPath] has succeeded, running it again gives the same
    path and changes nothing. *)
Theorem configPath_idempotent (w w' : World) (cp : string) :
  configPath w = (Done (cp, None), w') ->
  configPath w' = (Done (cp, None), w').
Proof.
  intros Hrun. pose proof (configPath_cases w) as H.
  destruct (storePath w) as [cp0|]; [|by rewrite Hrun in H].
  destruct H as (err & w0 & Hrun0 & _ & _ & Hagain).
  rewrite Hrun in Hrun0. injection Hrun0 as <- <- <-. by apply Hagain.
Qed.

Lemma configPath_idempotent_witness :
  configPath (bobFresh []) =
    (Done ("/home/bob/.kconf", None),
     set_files (<["/home/bob/.kconf" := Directory]> (w_files (bobFresh []))) (bobFresh [])) /\
  configPath
    (set_files (<["/home/bob/.kconf" := Directory]> (w_files (bobFresh []))) (bobFresh [])) =
    (Done ("/home/bob/.kconf", None),
     set_files (<["/home/bob/.kconf" := Directory]> (w_files (bobFresh []))) (bobFresh [])).
Proof.
  split; [vm_compute; reflexivity|].
  apply (configPath_idempotent (bobFresh [])). vm_compute. reflexivity.
Defined.

(** ** Adding, continued *)

Lemma Abs_reads (p : string) (w : World) :
  exists r, filepath.Abs p w = (Done r, w).
Proof.
  unfold filepath.Abs, os.Getwd, mbind, Go_bind, mret, Go_ret.
  destruct (filepath.IsAbs p); [eauto|]. destruct (w_cwd w); eauto.
Qed.

(** [os.Symlink] succeeds only on a free path, which it then binds. *)
Lemma Symlink_done (oldname newname : string) (w w' : World) :
  os.Symlink oldname newname w = (Done None, w') ->
  exists k, os.abspath w newname = Some k /\ w_files w !! k = None /\
    w' = set_files (<[k := Symlink oldname]> (w_files w)) w.
Proof.
  unfold os.Symlink, os.cannotCreate.
  destruct (os.abspath w newname) as [k|]; [|done].
  destruct (w_files w !! k) eqn:Hk; [done|].
  destruct (os.follow 40 (w_files w) (path.Dir k)) as [e|[d [| |t]]]; try done.
  intros [= <-]. by exists k.
Qed.

Lemma Symlink_reads_or_binds (oldname newname : string) (w : World) :
  exists err w', os.Symlink oldname newname w = (Done err, w') /\ (err ≠ None -> w' = w).
Proof.
  unfold os.Symlink.
  destruct (os.abspath w newname) as [k|]; [|by eexists _, _].
  destruct (os.cannotCreate w k); by eexists _, _.
Qed.

(** Add returns, and changes the world only when it returns [nil]. *)
Lemma addKubeconfig_returns (configPath : string) (args : list string) (w : World) :
  exists err w', addKubeconfig configPath args w = (Done err, w') /\ (err ≠ None -> w' = w).
Proof.
  destruct args as [|a0 rest]; [by eexists _, _|].
  rewrite addKubeconfig_eq. cbv zeta.
  destruct (Abs_reads a0 w) as [[file [e|]] Habs]; run Habs; [by eexists _, _|].
  rewrite (bind_done _ _ _ _ _ (exists_eq file w)).
  destruct (match os.stat w file with inl ENOENT => false | _ => true end); [|by eexists _, _].
  cbn [negb].
  rewrite (bind_done _ _ _ _ _ (exists_eq (configPath +:+ "/" +:+ aliasOf a0 rest) w)).
  destruct (match os.stat w (configPath +:+ "/" +:+ aliasOf a0 rest) with
            | inl ENOENT => false | _ => true end); [by eexists _, _|].
  destruct (Symlink_reads_or_binds file (configPath +:+ "/" +:+ aliasOf a0 rest) w)
    as ([e|] & w1 & Hsym & Hw); run Hsym.
  - exists (Some e), w1. split; [done|]. intros _. by apply Hw.
  - by eexists _, _.
Qed.

(** X7: Add always returns (it does not panic or exit), and when it returns
    an error the world is as before: no link is created and nothing is
    printed. *)
Theorem addKubeconfig_error_unchanged (configPath : string) (args : list string) (w : World) :
  exists err w', addKubeconfig configPath args w = (Done err, w') /\ (err ≠ None -> w' = w).
Proof. apply addKubeconfig_returns. Qed.

(** What a successful Add has done. *)
Lemma addKubeconfig_done (configPath a0 : string) (rest : list string) (w w' : World) :
  addKubeconfig configPath (a0 :: rest) w = (Done None, w') ->
  exists file k,
    filepath.Abs a0 w = (Done (file, None), w) /\
    exists_ file w = (Done true, w) /\
    os.abspath w (configPath +:+ "/" +:+ aliasOf a0 rest) = Some k /\
    w_files w !! k = None /\
    w' = set_stdout (w_stdout w +:+ aliasOf a0 rest +:+ " -> " +:+ file +:+ " added" +:+ LF)
           (set_files (<[k := Symlink file]> (w_files w)) w).
Proof.
  rewrite addKubeconfig_eq. cbv zeta.
  destruct (Abs_reads a0 w) as [[file [e|]] Habs]; run Habs; [done|].
  pose proof (exists_eq file w) as Hex. run Hex.
  destruct (match os.stat w file with inl ENOENT => false | _ => true end); [|done].
  cbn [negb].
  rewrite (bind_done _ _ _ _ _ (exists_eq (configPath +:+ "/" +:+ aliasOf a0 rest) w)).
  destruct (match os.stat w (configPath +:+ "/" +:+ aliasOf a0 rest) with
            | inl ENOENT => false | _ => true end); [done|].
  destruct (Symlink_reads_or_binds file (configPath +:+ "/" +:+ aliasOf a0 rest) w)
    as ([e|] & w1 & Hsym & Hw); run Hsym; [done|].
  apply Symlink_done in Hsym as (k & Hk & Hfree & ->).
  intros [= <-]. exists file, k. repeat (split; [done|]). reflexivity.
Qed.

(** C8: with the file as its only argument, Add takes as alias what
    [strings.Split] gives first for the base name of the file, which is the
    base name up to its first dot: the alias has no dot, and what follows it
    in the base name is nothing or starts with a dot.  Add then runs with this
    alias, as it does when the alias is given as second argument: the path
    it tests and links is that of the alias in the store, the message for a
    taken alias quotes it, and after a success the one new node is the link
    at that path and the line printed starts with the alias.  For
    [kube_config_cluster.yml] the alias is [kube_config_cluster]. *)
Theorem addKubeconfig_derived_alias (configPath file : string) (w : World) :
  let alias := beforeFirst "." (path.Base file) in
  index (strings.Split (path.Base file) ".") 0 w = (Done alias, w) /\
  addKubeconfig configPath [file] w = addKubeconfig configPath [file; alias] w /\
  ("."%char ∉ chars alias) /\
  (exists rest, path.Base file = alias +:+ rest /\ (rest = "" \/ exists r, rest = String "." r)) /\
  beforeFirst "." (path.Base "kube_config_cluster.yml") = "kube_config_cluster" /\
  addKubeconfig configPath [file] w =
    (let symlink := configPath +:+ "/" +:+ alias in
     '(abs, err) ← filepath.Abs file;
     match err with
     | Some _ => mret err
     | None =>
         found ← exists_ abs;
         if negb found then mret (fmt.Errorf "kubeconfig not found: %s" [vString abs]) else
         taken ← exists_ symlink;
         if taken : bool
         then mret (fmt.Errorf "kubeconfig already exists: %q" [vString alias]) else
         err ← os.Symlink abs symlink;
         match err with
         | Some _ => mret err
         | None =>
             fmt.Printf ("%s -> %s added" +:+ LF) [vString alias; vString abs];;
             mret None
         end
     end) w /\
  (forall w', addKubeconfig configPath [file] w = (Done None, w') ->
     exists abs k,
       filepath.Abs file w = (Done (abs, None), w) /\
       os.abspath w (configPath +:+ "/" +:+ alias) = Some k /\
       w_files w !! k = None /\
       w' = set_stdout (w_stdout w +:+ alias +:+ " -> " +:+ abs +:+ " added" +:+ LF)
              (set_files (<[k := Symlink abs]> (w_files w)) w)) /\
  addKubeconfig "/home/bob/.kconf" ["kube_config_cluster.yml"] (bob []) =
    (Done None,
     set_stdout ("kube_config_cluster -> /home/bob/git/kube_config_cluster.yml added" +:+ LF)
       (set_files
          (<["/home/bob/.kconf/kube_config_cluster" :=
               Symlink "/home/bob/git/kube_config_cluster.yml"]> bobFiles)
          (bob []))).
Proof.
  intros alias. split; [apply Split_dot_first|]. split; [by rewrite !addKubeconfig_eq|].
  destruct (beforeFirst_spec "." (path.Base file)) as [Hn Hr].
  do 3 (split; [done|]). split; [by rewrite addKubeconfig_eq|]. split.
  - intros w' Hadd.
    destruct (addKubeconfig_done _ _ _ _ _ Hadd) as (abs & k & Habs & _ & Hk & Hfree & Hw').
    by exists abs, k.
  - vm_compute. reflexivity.
Qed.

(** X8: when Add succeeds, [exists] holds of the file argument made
    absolute, the path of the alias in the store named nothing before and is
    now a link to that file (reading the link gives it back), no other path
    has changed, and the line printed is "<alias> -> <file> added". *)
Theorem addKubeconfig_success (configPath a0 : string) (rest : list string) (w w' : World) :
  addKubeconfig configPath (a0 :: rest) w = (Done None, w') ->
  exists file k,
    filepath.Abs a0 w = (Done (file, None), w) /\
    exists_ file w = (Done true, w) /\
    os.abspath w (configPath +:+ "/" +:+ aliasOf a0 rest) = Some k /\
    w_files w !! k = None /\
    w_files w' = <[k := Symlink file]> (w_files w) /\
    w_stdout w' = w_stdout w +:+ aliasOf a0 rest +:+ " -> " +:+ file +:+ " added" +:+ LF /\
    os.Readlink (configPath +:+ "/" +:+ aliasOf a0 rest) w' = (Done (file, None), w').
Proof.
  intros Hadd.
  destruct (addKubeconfig_done _ _ _ _ _ Hadd) as (file & k & Habs & Hfile & Hk & Hfree & ->).
  exists file, k. repeat (split; [done|]).
  unfold os.Readlink, os.lstat, os.abspath in *. cbn [w_cwd w_files set_stdout set_files].
  rewrite Hk. by rewrite lookup_insert_eq.
Qed.

(** X9: removing the link right after a successful Add succeeds and gives
    back the file system from before the Add: the world differs from the one
    before the Add in its output only. *)
Theorem addKubeconfig_then_remove (configPath a0 : string) (rest : list string) (w w' : World) :
  addKubeconfig configPath (a0 :: rest) w = (Done None, w') ->
  exists w'', remove (configPath +:+ "/" +:+ aliasOf a0 rest) w' = (Done None, w'') /\
    w_files w'' = w_files w /\ w'' = set_stdout (w_stdout w'') w.
Proof.
  intros Hadd.
  destruct (addKubeconfig_done _ _ _ _ _ Hadd) as (file & k & _ & _ & Hk & Hfree & ->).
  unfold remove, os.Readlink, os.Remove, os.lstat, os.abspath, mbind, Go_bind in *.
  cbn [w_cwd w_files set_stdout set_files] in *.
  rewrite Hk, lookup_insert_eq. cbn [w_cwd w_files set_stdout set_files mret Go_ret].
  rewrite Hk, lookup_insert_eq. eexists. split; [reflexivity|].
  unfold set_stdout, set_files. cbn [w_files w_cwd w_env w_args w_stdout].
  rewrite delete_insert_eq, delete_id by done. done.
Qed.

Lemma addKubeconfig_success_witness :
  addKubeconfig "/home/bob/.kconf" ["kube_config_cluster.yml"] (bob []) = (Done None, bobAdded) /\
  os.Readlink "/home/bob/.kconf/kube_config_cluster" bobAdded =
    (Done ("/home/bob/git/kube_config_cluster.yml", None), bobAdded).
Proof.
  split; [vm_compute; reflexivity|].
  destruct (addKubeconfig_success "/home/bob/.kconf" "kube_config_cluster.yml" [] (bob []) bobAdded)
    as (file & k & Habs & _ & _ & _ & _ & _ & Hread); [vm_compute; reflexivity|].
  vm_compute in Habs. injection Habs as <-. exact Hread.
Defined.

Lemma addKubeconfig_then_remove_witness :
  addKubeconfig "/home/bob/.kconf" ["kube_config_cluster.yml"] (bob []) = (Done None, bobAdded) /\
  w_files (remove "/home/bob/.kconf/kube_config_cluster" bobAdded).2 = bobFiles.
Proof.
  split; [vm_compute; reflexivity|].
  destruct (addKubeconfig_then_remove "/home/bob/.kconf" "kube_config_cluster.yml" []
              (bob []) bobAdded) as (w'' & Hrm & Hfiles & _); [vm_compute; reflexivity|].
  change (remove "/home/bob/.kconf/kube_config_cluster" bobAdded)
    with (remove ("/home/bob/.kconf" +:+ "/" +:+ aliasOf "kube_config_cluster.yml" []) bobAdded).
  rewrite Hrm. exact Hfiles.
Defined.

(** ** Removing, continued *)

(** X12: after a successful [remove] the path names nothing: [exists] is
    false of it, and removing it again fails on reading the link, the world
    unchanged. *)
Theorem remove_then_gone (linkPath : string) (w w' : World) :
  remove linkPath w = (Done None, w') ->
  exists_ linkPath w' = (Done false, w') /\
  remove linkPath w' = (Done (Some (PathError "readlink" linkPath ENOENT)), w').
Proof.
  unfold remove, os.Readlink, os.Remove, mbind, Go_bind, mret, Go_ret.
  destruct (os.lstat w linkPath) as [e|[k [| |target]]] eqn:Hl; try done.
  cbn. rewrite Hl. intros [= <-].
  unfold os.lstat, os.abspath in Hl.
  assert (os.abspath w linkPath = Some k) as Hk.
  { unfold os.abspath. by repeat case_match; simplify_eq. }
  rewrite exists_eq. unfold os.stat, os.lstat, os.abspath in *.
  cbn [w_cwd w_files set_stdout set_files]. rewrite Hk. cbn [os.follow].
  by rewrite lookup_delete_eq.
Qed.

Lemma remove_then_gone_witness :
  remove "/home/bob/.kconf/my" (bob []) = (Done None, bobRemoved) /\
  remove "/home/bob/.kconf/my" bobRemoved =
    (Done (Some (PathError "readlink" "/home/bob/.kconf/my" ENOENT)), bobRemoved).
Proof.
  split; [vm_compute; reflexivity|].
  apply (remove_then_gone "/home/bob/.kconf/my" (bob []) bobRemoved). vm_compute. reflexivity.
Defined.

(** ** Splitting at slashes *)

Lemma Split_nil : strings.Split "" "/" = [""].
Proof. reflexivity. Qed.

Lemma Split_slash (s : string) : strings.Split (String "/" s) "/" = "" :: strings.Split s "/".
Proof.
  unfold strings.Split. cbn [strings.splitFrom String.prefix].
  destruct (ascii_dec "/" "/") as [_|Hne]; [|done].
  replace (String.prefix "" s) with true by (by destruct s).
  change (String.length "/" - 1)%nat with 0%nat.
  by destruct (strings.splitFrom "/" s 0).
Qed.

Lemma Split_other (c : ascii) (s : string) :
  c ≠ "/"%char ->
  strings.Split (String c s) "/" =
  match strings.Split s "/" with
  | p :: ps => String c p :: ps
  | [] => [String c ""]
  end.
Proof.
  intros Hc. unfold strings.Split. cbn [strings.splitFrom String.prefix].
  destruct (ascii_dec "/" c) as [Heq|_]; [by destruct Hc|].
  by destruct (strings.splitFrom "/" s 0).
Qed.

Lemma Split_not_nil (s : string) : strings.Split s "/" ≠ [].
Proof. unfold strings.Split. by destruct (strings.splitFrom "/" s 0). Qed.

Lemma Split_app (a b : string) :
  strings.Split (a +:+ String "/" b) "/" = strings.Split a "/" ++ strings.Split b "/".
Proof.
  induction a as [|c a IH].
  - change ("" +:+ String "/" b) with (String "/" b). by rewrite Split_slash.
  - change (String c a +:+ String "/" b) with (String c (a +:+ String "/" b)).
    destruct (decide (c = "/"%char)) as [->|Hc].
    + by rewrite !Split_slash, IH.
    + rewrite !Split_other, IH by done.
      pose proof (Split_not_nil a). by destruct (strings.Split a "/").
Qed.

Lemma Split_slashless (e : string) : slashless e -> strings.Split e "/" = [e].
Proof.
  unfold slashless. induction e as [|c e IH]; [done|].
  cbn [chars list_ascii_of_string]. rewrite not_elem_of_cons. intros [Hc He].
  rewrite Split_other by done. by rewrite (IH He).
Qed.

Lemma Split_pieces (s : string) : Forall slashless (strings.Split s "/").
Proof.
  induction s as [|c s IH].
  - rewrite Split_nil. repeat constructor. unfold slashless. cbn. apply not_elem_of_nil.
  - destruct (decide (c = "/"%char)) as [->|Hc].
    + rewrite Split_slash. constructor; [|done]. unfold slashless. cbn. apply not_elem_of_nil.
    + rewrite Split_other by done.
      pose proof (Split_not_nil s). destruct (strings.Split s "/") as [|p ps]; [done|].
      apply Forall_cons in IH as [Hp Hps]. constructor; [|done].
      unfold slashless in *. cbn [chars list_ascii_of_string].
      rewrite not_elem_of_cons. split; [|done]. unfold path.slash. congruence.
Qed.

Lemma concat_cons (x y : string) (l : list string) :
  String.concat "/" (x :: y :: l) = x +:+ String "/" (String.concat "/" (y :: l)).
Proof. reflexivity. Qed.

Lemma Split_concat (elems : list string) :
  elems ≠ [] -> Forall slashless elems ->
  strings.Split (String.concat "/" elems) "/" = elems.
Proof.
  induction elems as [|x [|y l] IH]; [done| |].
  - intros _ [Hx _]%Forall_cons. by apply Split_slashless.
  - intros _ [Hx Hl]%Forall_cons. rewrite concat_cons, Split_app.
    rewrite (Split_slashless x Hx). cbn [app]. by rewrite IH.
Qed.

(** ** Cleaning absolute paths *)

Lemma cleanStep_good (out : list string) (e : string) :
  goodName e -> path.cleanStep true out e = e :: out.
Proof.
  intros (H1 & H2 & H3 & _). unfold path.cleanStep.
  by rewrite !bool_decide_eq_false_2 by done.
Qed.

Lemma cleanStep_keeps (out : list string) (e : string) :
  Forall goodName out -> slashless e -> Forall goodName (path.cleanStep true out e).
Proof.
  intros Hout He. unfold path.cleanStep.
  repeat case_bool_decide; cbn [orb]; try done.
  - destruct out as [|top below]; [done|].
    apply Forall_cons in Hout as [Htop Hbelow].
    case_bool_decide; [|done]. subst top. by destruct Htop as (_ & _ & ? & _).
  - constructor; [|done]. done.
Qed.

Lemma foldl_cleanStep_keeps (out l : list string) :
  Forall goodName out -> Forall slashless l ->
  Forall goodName (foldl (path.cleanStep true) out l).
Proof.
  revert out. induction l as [|e l IH]; intros out Hout Hl; [done|].
  apply Forall_cons in Hl as [He Hl]. cbn. apply IH; [|done]. by apply cleanStep_keeps.
Qed.

Lemma foldl_cleanStep_good (out l : list string) :
  Forall goodName l -> foldl (path.cleanStep true) out l = rev l ++ out.
Proof.
  revert out. induction l as [|e l IH]; intros out Hl; [done|].
  apply Forall_cons in Hl as [He Hl]. cbn [foldl].
  rewrite cleanStep_good, IH by done. cbn [rev]. by rewrite <- app_assoc.
Qed.

Lemma elemsOf_good (p : string) : Forall goodName (elemsOf p).
Proof.
  unfold elemsOf. apply Forall_rev. apply foldl_cleanStep_keeps; [done|apply Split_pieces].
Qed.

(** [path.Clean] on a rooted path. *)
Lemma Clean_rooted (p : string) : path.Clean (String "/" p) = absOf (elemsOf p).
Proof.
  unfold path.Clean, absOf, elemsOf. rewrite Split_slash. cbn [foldl].
  change (bool_decide ("/"%char = path.slash)) with true. cbv iota.
  change (path.cleanStep true [] "") with (@nil string).
  rewrite bool_decide_eq_false_2; [done|]. intros H. discriminate H.
Qed.

Lemma IsAbs_rooted (p : string) : path.IsAbs p = true -> exists p', p = String "/" p'.
Proof.
  unfold path.IsAbs, strings.HasPrefix. destruct p as [|c p]; cbn [String.prefix].
  { discriminate. }
  destruct (ascii_dec "/" c) as [<-|]; intros H; [eauto|discriminate H].
Qed.

Lemma elemsOf_concat (elems : list string) :
  Forall goodName elems -> elemsOf (String.concat "/" elems) = elems.
Proof.
  intros Hgood. unfold elemsOf. destruct elems as [|x l]; [done|].
  rewrite Split_concat; [|done|].
  - rewrite foldl_cleanStep_good by done. by rewrite app_nil_r, rev_involutive.
  - eapply Forall_impl; [done|]. by intros e (_ & _ & _ & ?).
Qed.

(** A path in clean form is left as it is. *)
Lemma Clean_absOf (elems : list string) :
  Forall goodName elems -> path.Clean (absOf elems) = absOf elems.
Proof.
  intros Hgood. change (absOf elems) with (String "/" (String.concat "/" elems)) at 1.
  by rewrite Clean_rooted, elemsOf_concat.
Qed.

Lemma elemsOf_child (p e : string) :
  goodName e -> elemsOf (p +:+ String "/" e) = elemsOf p ++ [e].
Proof.
  intros He. unfold elemsOf. rewrite Split_app, foldl_app.
  rewrite (Split_slashless e) by apply He. cbn [foldl].
  by rewrite cleanStep_good.
Qed.

Lemma elemsOf_trailing (p : string) : elemsOf (p +:+ "/") = elemsOf p.
Proof.
  unfold elemsOf. change "/" with (String "/" "") at 1. by rewrite Split_app, foldl_app.
Qed.

Lemma concat_snoc (l : list string) (e : string) :
  l ≠ [] -> String.concat "/" (l ++ [e]) = String.concat "/" l +:+ String "/" e.
Proof.
  induction l as [|x [|y l] IH]; [done|done|]. intros _.
  change ((x :: y :: l) ++ [e]) with (x :: y :: (l ++ [e])).
  rewrite !concat_cons.
  change (y :: l ++ [e]) with ((y :: l) ++ [e]). rewrite IH by done.
  rewrite string_app_assoc.
  change (String "/" (String.concat "/" (y :: l)) +:+ String "/" e)
    with (String "/" (String.concat "/" (y :: l) +:+ String "/" e)).
  done.
Qed.

Lemma absOf_snoc (elems : list string) (e : string) :
  absOf (elems ++ [e]) =
  (if bool_decide (elems = []) then "" else absOf elems) +:+ String "/" e.
Proof.
  unfold absOf. case_bool_decide as Hnil; [by subst elems|].
  by rewrite concat_snoc, string_app_assoc.
Qed.

(** ** The last element of a path *)

Lemma fromSlash_app (l m : list ascii) :
  path.slash ∉ l -> path.fromSlash (l ++ path.slash :: m) = path.slash :: m.
Proof.
  induction l as [|c l IH]; intros Hl; cbn [app path.fromSlash].
  - by rewrite bool_decide_eq_true_2.
  - apply not_elem_of_cons in Hl as [Hc Hl].
    rewrite bool_decide_eq_false_2 by done. by apply IH.
Qed.

Lemma untilSlash_app (l m : list ascii) :
  path.slash ∉ l -> path.untilSlash (l ++ path.slash :: m) = l.
Proof.
  induction l as [|c l IH]; intros Hl; cbn [app path.untilSlash].
  - by rewrite bool_decide_eq_true_2.
  - apply not_elem_of_cons in Hl as [Hc Hl].
    rewrite bool_decide_eq_false_2 by done. by rewrite IH.
Qed.

Lemma slashless_rev (e : string) : slashless e -> path.slash ∉ rev (chars e).
Proof.
  unfold slashless. intros He Hin. apply He.
  apply list_elem_of_In, in_rev. by apply list_elem_of_In.
Qed.

Lemma rev_chars_child (pre e : string) :
  rev (chars (pre +:+ String "/" e)) = rev (chars e) ++ path.slash :: rev (chars pre).
Proof.
  rewrite chars_app. change (chars (String "/" e)) with (path.slash :: chars e).
  rewrite rev_app_distr. cbn [rev]. by rewrite <- app_assoc.
Qed.

Lemma Dir_child (pre e : string) :
  slashless e -> path.Dir (pre +:+ String "/" e) = path.Clean (pre +:+ "/").
Proof.
  intros He. unfold path.Dir. rewrite rev_chars_child, fromSlash_app.
  - cbn [rev]. rewrite rev_involutive.
    change (chars pre ++ [path.slash]) with (chars pre ++ chars "/").
    by rewrite <- chars_app, unchars_chars.
  - by apply slashless_rev.
Qed.

Lemma Base_child (pre e : string) :
  goodName e -> path.Base (pre +:+ String "/" e) = e.
Proof.
  intros (Hne & _ & _ & He). unfold path.Base.
  destruct (pre +:+ String "/" e) eqn:Hk; [by destruct pre|]. rewrite <- Hk.
  rewrite rev_chars_child.
  pose proof (slashless_rev e He) as Hrev.
  assert (path.dropSlashes (rev (chars e) ++ path.slash :: rev (chars pre)) =
          rev (chars e) ++ path.slash :: rev (chars pre)) as ->.
  { destruct (rev (chars e)) as [|c l] eqn:Hr.
    - apply (f_equal (@rev ascii)) in Hr. rewrite rev_involutive in Hr.
      apply (f_equal unchars) in Hr. rewrite unchars_chars in Hr. by destruct Hne.
    - apply not_elem_of_cons in Hrev as [Hc _]. cbn [app path.dropSlashes].
      by rewrite bool_decide_eq_false_2. }
  rewrite untilSlash_app, rev_involutive by done.
  destruct (chars e) as [|c l] eqn:Hc.
  - apply (f_equal unchars) in Hc. rewrite unchars_chars in Hc. by destruct Hne.
  - by rewrite <- Hc, unchars_chars.
Qed.

Lemma absOf_nil_iff (elems : list string) :
  Forall goodName elems -> absOf elems = "/" <-> elems = [].
Proof.
  intros Hgood. split; [|by intros ->].
  destruct elems as [|x l]; [done|]. apply Forall_cons in Hgood as [(Hx & _) _].
  unfold absOf. destruct l as [|y l].
  - cbn. intros [= H]. by destruct Hx.
  - rewrite concat_cons. destruct x; [done|]. intros H. discriminate H.
Qed.

Lemma absOf_child (elems : list string) (e : string) :
  Forall goodName elems -> absOf (elems ++ [e]) = child (absOf elems) e.
Proof.
  intros Hgood. rewrite absOf_snoc. unfold child.
  destruct (decide (elems = [])) as [->|Hne]; [done|].
  rewrite !bool_decide_eq_false_2; [done| |done].
  by rewrite absOf_nil_iff.
Qed.

Lemma Dir_absOf_child (elems : list string) (e : string) :
  Forall goodName elems -> goodName e ->
  path.Dir (child (absOf elems) e) = absOf elems.
Proof.
  intros Hgood He. unfold child. rewrite Dir_child by apply He.
  case_bool_decide as Hroot; [by rewrite Hroot|].
  change (absOf elems +:+ "/") with (String "/" (String.concat "/" elems +:+ "/")).
  by rewrite Clean_rooted, elemsOf_trailing, elemsOf_concat.
Qed.

Lemma string_length_app (a b : string) :
  String.length (a +:+ b) = (String.length a + String.length b)%nat.
Proof.
  induction a as [|c a IH]; [done|].
  change (S (String.length (a +:+ b)) = S (String.length a + String.length b)). by rewrite IH.
Qed.

Lemma child_ne (d e : string) : e ≠ "" -> child d e ≠ d.
Proof.
  unfold child. intros He H. apply (f_equal String.length) in H.
  rewrite string_length_app in H. cbn [String.length] in H.
  case_bool_decide as Hd.
  - subst d. destruct e; [done|]. cbn in H. lia.
  - lia.
Qed.

(** ** Keys of children *)

Lemma Base_of_child (d e : string) : goodName e -> path.Base (child d e) = e.
Proof. intros He. unfold child. by apply Base_child. Qed.

Lemma Clean_abs_elems (p : string) :
  path.IsAbs p = true -> exists elems, Forall goodName elems /\ path.Clean p = absOf elems.
Proof.
  intros [p' ->]%IsAbs_rooted. exists (elemsOf p'). split; [apply elemsOf_good|apply Clean_rooted].
Qed.

Lemma Clean_idem (p : string) : path.IsAbs p = true -> path.Clean (path.Clean p) = path.Clean p.
Proof.
  intros (elems & Hgood & ->)%Clean_abs_elems. by apply Clean_absOf.
Qed.

(** The path of [e] under the directory [p] names the child [e] of [p]. *)
Lemma Clean_child (p e : string) :
  path.IsAbs p = true -> goodName e ->
  path.Clean (p +:+ "/" +:+ e) = child (path.Clean p) e.
Proof.
  intros [p' ->]%IsAbs_rooted He.
  change (String "/" p' +:+ "/" +:+ e) with (String "/" (p' +:+ String "/" e)).
  rewrite !Clean_rooted, elemsOf_child by done. apply absOf_child, elemsOf_good.
Qed.

Lemma Dir_Base_child (p e : string) :
  path.IsAbs p = true -> goodName e ->
  path.Dir (child (path.Clean p) e) = path.Clean p /\
  path.Base (child (path.Clean p) e) = e.
Proof.
  intros Hp He. split.
  - destruct (Clean_abs_elems p Hp) as (elems & Hgood & ->). by apply Dir_absOf_child.
  - by apply Base_of_child.
Qed.

(** A clean absolute key other than the root is the child, named by its
    base name, of its directory. *)
Lemma key_child (k : string) :
  path.IsAbs k = true -> path.Clean k = k -> k ≠ "/" ->
  goodName (path.Base k) /\ k = child (path.Dir k) (path.Base k).
Proof.
  intros Habs Hclean Hroot.
  destruct (Clean_abs_elems k Habs) as (elems & Hgood & Hk). rewrite Hclean in Hk.
  destruct elems as [|x l] using rev_ind; [done|]. clear IHl.
  apply Forall_app in Hgood as [Hl [Hx _]%Forall_cons].
  rewrite absOf_child in Hk by done. subst k.
  rewrite Base_of_child by done. by rewrite Dir_absOf_child.
Qed.

(** ** The listing after a change *)

Lemma IsAbs_slash (p : string) : path.IsAbs (String "/" p) = true.
Proof.
  unfold path.IsAbs, strings.HasPrefix. cbn [String.prefix].
  destruct (ascii_dec "/" "/") as [_|Hne]; [by destruct p|done].
Qed.

Lemma IsAbs_app (p q : string) : path.IsAbs p = true -> path.IsAbs (p +:+ q) = true.
Proof. intros [p' ->]%IsAbs_rooted. apply IsAbs_slash. Qed.

Lemma lstat_abs (configPath d : string) (n : node) (w : World) :
  path.IsAbs configPath = true ->
  os.lstat w configPath = inr (d, n) ->
  d = path.Clean configPath /\ w_files w !! d = Some n /\ os.abspath w configPath = Some d.
Proof.
  intros Habs. unfold os.lstat, os.abspath. rewrite Habs.
  case_bool_decide as He; [done|].
  destruct (w_files w !! path.Clean configPath) as [n'|] eqn:Hd; [|done].
  by intros [= <- <-].
Qed.

(** A store whose path names a directory can be listed. *)
Lemma listSymDir_dir (configPath d : string) (w : World) :
  os.abspath w configPath = Some d ->
  w_files w !! d = Some Directory ->
  exists files,
    listSymDir configPath w = (Done (files, None), w) /\
    forall f, f ∈ files <->
      exists k t, w_files w !! k = Some (Symlink t) /\ k ≠ d /\ path.Dir k = d /\
                  f = os.fileInfo (path.Base k) (Symlink t).
Proof.
  intros Hd Hdir.
  assert (os.stat w configPath = inr (d, Directory)) as Hstat.
  { unfold os.stat. rewrite Hd. cbn [os.follow]. by rewrite Hdir. }
  pose proof (listSymDir_eq configPath w) as Heq. rewrite Hstat in Heq.
  eexists. split; [exact Heq|].
  destruct (listSymDir_ok _ _ _ _ Heq) as (_ & d' & Hd' & _ & Hmem).
  rewrite Hstat in Hd'. by injection Hd' as <-.
Qed.

(** X10: after a successful Add to a store whose path is absolute and names
    a directory, with an alias that can be the name of an entry, the listing
    of the store holds what it held before and the new entry, named by the
    alias and linked to the file, and nothing else. *)
Theorem addKubeconfig_then_listed (configPath a0 : string) (rest : list string)
    (w w' : World) (d : string) :
  path.IsAbs configPath = true ->
  os.lstat w configPath = inr (d, Directory) ->
  goodName (aliasOf a0 rest) ->
  addKubeconfig configPath (a0 :: rest) w = (Done None, w') ->
  exists file files files',
    filepath.Abs a0 w = (Done (file, None), w) /\
    listSymDir configPath w = (Done (files, None), w) /\
    listSymDir configPath w' = (Done (files', None), w') /\
    forall f, f ∈ files' <-> f ∈ files \/ f = os.fileInfo (aliasOf a0 rest) (Symlink file).
Proof.
  intros Habs Hstore Hgood Hadd.
  destruct (lstat_abs _ _ _ _ Habs Hstore) as (Hd & Hdir & Hcp).
  destruct (addKubeconfig_done _ _ _ _ _ Hadd) as (file & k & Hfile & _ & Hk & Hfree & ->).
  assert (k = child d (aliasOf a0 rest)) as Hkd.
  { unfold os.abspath in Hk. case_bool_decide; [done|].
    rewrite (IsAbs_app _ _ Habs) in Hk. injection Hk as <-. rewrite Hd. by apply Clean_child. }
  destruct (Dir_Base_child configPath (aliasOf a0 rest) Habs Hgood) as [HDir HBase].
  rewrite <- Hd, <- Hkd in HDir, HBase.
  assert (k ≠ d) as Hne.
  { rewrite Hkd. apply child_ne, Hgood. }
  destruct (listSymDir_dir configPath d w Hcp Hdir) as (files & Hlist & Hmem).
  destruct (listSymDir_dir configPath d
              (set_stdout (w_stdout w +:+ aliasOf a0 rest +:+ " -> " +:+ file +:+ " added" +:+ LF)
                 (set_files (<[k := Symlink file]> (w_files w)) w)))
    as (files' & Hlist' & Hmem').
  { exact Hcp. }
  { cbn [w_files set_stdout set_files]. by rewrite lookup_insert_ne. }
  exists file, files, files'. repeat (split; [done|]).
  intros f. rewrite Hmem', Hmem. cbn [w_files set_stdout set_files]. split.
  - intros (k' & t & Hk' & Hne' & Hdir' & ->).
    destruct (decide (k' = k)) as [->|Hkk].
    + rewrite lookup_insert_eq in Hk'. injection Hk' as <-. right. by rewrite HBase.
    + rewrite lookup_insert_ne in Hk' by done. left. by exists k', t.
  - intros [(k' & t & Hk' & Hne' & Hdir' & ->)| ->].
    + exists k', t. split; [|done]. rewrite lookup_insert_ne; [done|]. congruence.
    + exists k, file. rewrite lookup_insert_eq, HBase. done.
Qed.

Lemma Join_two (a b : string) :
  a ≠ "" -> b ≠ "" -> path.Join [a; b] = path.Clean (a +:+ "/" +:+ b).
Proof.
  intros Ha Hb. unfold path.Join.
  rewrite filter_cons_True by done. by rewrite filter_cons_True by done.
Qed.

(** X11: in a file system whose keys are clean absolute paths, with a store
    whose path is absolute and names a directory, removing a listed entry by
    its path in the store succeeds, deletes only the node of that entry, and
    leaves a listing that holds the other entries and nothing else. *)
Theorem remove_then_listed (configPath : string) (w : World) (d : string)
    (files : list fs.FileInfo) (file : fs.FileInfo) :
  cleanKeys (w_files w) ->
  path.IsAbs configPath = true ->
  os.lstat w configPath = inr (d, Directory) ->
  listSymDir configPath w = (Done (files, None), w) ->
  file ∈ files ->
  exists w' files',
    remove (path.Join [configPath; fs.Name file]) w = (Done None, w') /\
    w_files w' = delete (child d (fs.Name file)) (w_files w) /\
    listSymDir configPath w' = (Done (files', None), w') /\
    forall f, f ∈ files' <-> f ∈ files /\ fs.Name f ≠ fs.Name file.
Proof.
  intros Hclean Habs Hstore Hlist Hin.
  destruct (lstat_abs _ _ _ _ Habs Hstore) as (Hd & Hdir & Hcp).
  destruct (listSymDir_dir configPath d w Hcp Hdir) as (files0 & Hlist0 & Hmem).
  rewrite Hlist in Hlist0. injection Hlist0 as <-.
  assert (forall k n, w_files w !! k = Some n -> k ≠ d -> path.Dir k = d ->
            goodName (path.Base k) /\ k = child d (path.Base k)) as Hkey.
  { intros k n Hk Hne Hdir'. destruct (Hclean k n Hk) as [Hkabs Hkclean].
    rewrite <- Hdir'. apply key_child; [done..|]. intros ->.
    apply Hne. rewrite <- Hdir'. reflexivity. }
  apply Hmem in Hin as (k0 & t & Hk0 & Hne0 & Hdir0 & ->).
  destruct (Hkey _ _ Hk0 Hne0 Hdir0) as [Hgood0 Hchild0].
  change (fs.Name (os.fileInfo (path.Base k0) (Symlink t))) with (path.Base k0).
  rewrite <- Hchild0.
  assert (path.Join [configPath; path.Base k0] = k0) as HJoin.
  { rewrite Join_two; [|by intros ->|apply Hgood0].
    rewrite Clean_child, <- Hd by done. by rewrite <- Hchild0. }
  rewrite HJoin.
  destruct (Hclean k0 _ Hk0) as [Hk0abs Hk0clean].
  assert (os.abspath w k0 = Some k0) as Hk0path.
  { unfold os.abspath. rewrite Hk0abs, Hk0clean.
    rewrite bool_decide_eq_false_2; [done|]. intros ->. done. }
  destruct (listSymDir_dir configPath d
              (set_stdout (w_stdout w +:+ path.Base k0 +:+ " -> " +:+ t +:+ " removed" +:+ LF)
                 (set_files (delete k0 (w_files w)) w)))
    as (files' & Hlist' & Hmem').
  { exact Hcp. }
  { cbn [w_files set_stdout set_files]. by rewrite lookup_delete_ne. }
  eexists _, files'. split.
  { unfold remove, os.Readlink, os.Remove, os.lstat, mbind, Go_bind.
    rewrite Hk0path, Hk0. cbn [mret Go_ret]. rewrite Hk0path, Hk0. reflexivity. }
  split; [done|]. split; [exact Hlist'|].
  intros f. rewrite Hmem', Hmem. cbn [w_files set_stdout set_files]. split.
  - intros (k' & t' & Hk' & Hne' & Hdir' & ->).
    apply lookup_delete_Some in Hk' as [Hkk Hk'].
    split; [by exists k', t'|].
    change (fs.Name (os.fileInfo (path.Base k') (Symlink t'))) with (path.Base k').
    intros Hbase. apply Hkk.
    destruct (Hkey _ _ Hk' Hne' Hdir') as [_ ->]. by rewrite Hbase.
  - intros [(k' & t' & Hk' & Hne' & Hdir' & ->) Hname].
    exists k', t'. split; [|done]. rewrite lookup_delete_ne; [done|].
    intros <-. by apply Hname.
Qed.

Lemma addKubeconfig_then_listed_witness :
  path.IsAbs "/home/bob/.kconf" = true /\
  os.lstat (bob []) "/home/bob/.kconf" = inr ("/home/bob/.kconf", Directory) /\
  goodName (aliasOf "kube_config_cluster.yml" []) /\
  addKubeconfig "/home/bob/.kconf" ["kube_config_cluster.yml"] (bob []) = (Done None, bobAdded) /\
  exists file files files',
    filepath.Abs "kube_config_cluster.yml" (bob []) = (Done (file, None), bob []) /\
    listSymDir "/home/bob/.kconf" (bob []) = (Done (files, None), bob []) /\
    listSymDir "/home/bob/.kconf" bobAdded = (Done (files', None), bobAdded) /\
    forall f, f ∈ files' <->
      f ∈ files \/ f = os.fileInfo (aliasOf "kube_config_cluster.yml" []) (Symlink file).
Proof.
  assert (goodName (aliasOf "kube_config_cluster.yml" [])) as Hgood.
  { repeat split; try (by vm_compute). unfold slashless. compute_done. }
  split; [vm_compute; reflexivity|]. split; [vm_compute; reflexivity|]. split; [exact Hgood|].
  split; [vm_compute; reflexivity|].
  apply (addKubeconfig_then_listed "/home/bob/.kconf" "kube_config_cluster.yml" [] (bob [])
           bobAdded "/home/bob/.kconf");
    [vm_compute; reflexivity | vm_compute; reflexivity | exact Hgood | vm_compute; reflexivity].
Defined.

Lemma remove_then_listed_witness :
  cleanKeys (w_files (bob [])) /\
  os.lstat (bob []) "/home/bob/.kconf" = inr ("/home/bob/.kconf", Directory) /\
  exists w' files',
    remove (path.Join ["/home/bob/.kconf"; "my"]) (bob []) = (Done None, w') /\
    w_files w' = delete (child "/home/bob/.kconf" "my") (w_files (bob [])) /\
    listSymDir "/home/bob/.kconf" w' = (Done (files', None), w') /\
    forall f, f ∈ files' <-> f ∈ bobListing /\ fs.Name f ≠ "my".
Proof.
  assert (cleanKeys (w_files (bob []))) as Hclean by (unfold cleanKeys; compute_done).
  split; [exact Hclean|]. split; [vm_compute; reflexivity|].
  apply (remove_then_listed "/home/bob/.kconf" (bob []) "/home/bob/.kconf" bobListing
           {| fs.Name := "my"; fs.Mode := Z.lor fs.ModeSymlink 511 |});
    [exact Hclean | vm_compute; reflexivity | vm_compute; reflexivity
    | vm_compute; reflexivity | ].
  apply list_elem_of_In. simpl. auto.
Defined.

(** ** Names in a listing *)

Lemma NoDup_fmap_filter {A B} (f : A -> B) (P : A -> bool) (l : list A) :
  NoDup (f <$> l) -> NoDup (f <$> List.filter P l).
Proof.
  induction l as [|x l IH]; [done|]. cbn [List.filter]. rewrite fmap_cons, NoDup_cons.
  intros [Hx Hl]. destruct (P x); [|by apply IH].
  rewrite fmap_cons, NoDup_cons. split; [|by apply IH].
  intros (y & Hy & Hin)%list_elem_of_fmap. apply Hx, list_elem_of_fmap. exists y. split; [done|].
  apply list_elem_of_In in Hin. apply List.filter_In in Hin as [Hin _]. by apply list_elem_of_In.
Qed.

(** No two children of a directory have the same name. *)
Lemma NoDup_entries (files : gmap string node) (d : string) :
  cleanKeys files -> NoDup (os.entries files d).*1.
Proof.
  intros Hclean. unfold os.entries.
  assert (Forall (fun kn => path.IsAbs kn.1 = true /\ path.Clean kn.1 = kn.1) (map_to_list files))
    as Hall.
  { apply Forall_forall. intros [k n] Hin%elem_of_map_to_list. by apply (Hclean k n). }
  pose proof (NoDup_fst_map_to_list files) as Hnd.
  induction (map_to_list files) as [|[k n] l IH]; [constructor|].
  rewrite fmap_cons, NoDup_cons in Hnd. destruct Hnd as [Hk Hnd].
  apply Forall_cons in Hall as [[Habs Hcl] Hall]. cbn [fst] in Habs, Hcl, Hk.
  specialize (IH Hall Hnd). cbn [omap list_omap].
  case_bool_decide as Hd; [|exact IH].
  destruct Hd as [Hne Hdir]. rewrite fmap_cons, NoDup_cons. split; [|exact IH].
  intros ([name n'] & Hname & Hin)%list_elem_of_fmap. cbn in Hname.
  apply (proj1 (list_elem_of_omap _ l _)) in Hin as ([k' n''] & Hin & Hg).
  case_bool_decide as Hd'; [|done]. destruct Hd' as [Hne' Hdir']. injection Hg as <- <-.
  apply Hk, list_elem_of_fmap. exists (k', n''). split; [|done]. cbn.
  rewrite Forall_forall in Hall. destruct (Hall _ Hin) as [Habs' Hcl']. cbn in Habs', Hcl'.
  assert (k ≠ "/") as Hroot by (intros ->; apply Hne; by rewrite <- Hdir).
  assert (k' ≠ "/") as Hroot' by (intros ->; apply Hne'; by rewrite <- Hdir').
  destruct (key_child k Habs Hcl Hroot) as [_ Hk0].
  destruct (key_child k' Habs' Hcl' Hroot') as [_ Hk'].
  rewrite Hk0, Hk'. congruence.
Qed.

(** X15: in a file system whose keys are clean absolute paths, no two
    entries of a listing have the same name: an entry is determined by its
    name. *)
Theorem listSymDir_names_distinct (dir : string) (w w' : World) (files : list fs.FileInfo) :
  cleanKeys (w_files w) ->
  listSymDir dir w = (Done (files, None), w') ->
  NoDup (fs.Name <$> files) /\
  forall f g, f ∈ files -> g ∈ files -> fs.Name f = fs.Name g -> f = g.
Proof.
  intros Hclean Hlist.
  assert (NoDup (fs.Name <$> files)) as Hnd.
  { rewrite listSymDir_eq in Hlist.
    destruct (os.stat w dir) as [e|[d [| |t]]]; try done. injection Hlist as <- <-.
    apply NoDup_fmap_filter. rewrite merge_sort_Permutation.
    rewrite <- list_fmap_compose.
    erewrite list_fmap_ext; [apply (NoDup_entries _ d Hclean)|].
    by intros i [name n] _. }
  split; [done|]. intros f g [i Hi]%list_elem_of_lookup_1 [j Hj]%list_elem_of_lookup_1 Hfg.
  assert (i = j) as ->; [|congruence].
  eapply NoDup_lookup; [exact Hnd| |]; rewrite list_lookup_fmap.
  - by rewrite Hi.
  - rewrite Hj. cbn. by rewrite Hfg.
Qed.

Lemma listSymDir_names_distinct_witness :
  cleanKeys (w_files (bob [])) /\
  listSymDir "/home/bob/.kconf" (bob []) = (Done (bobListing, None), bob []) /\
  NoDup (fs.Name <$> bobListing).
Proof.
  assert (cleanKeys (w_files (bob []))) as Hclean by (unfold cleanKeys; compute_done).
  split; [exact Hclean|]. split; [vm_compute; reflexivity|].
  apply (listSymDir_names_distinct "/home/bob/.kconf" (bob []) (bob []) bobListing Hclean).
  vm_compute. reflexivity.
Defined.

(** X14: [listSymDir] changes nothing.  When its argument names a
    directory, links followed, the listing is sorted by name and holds the
    symbolic links that are children of the directory, whatever they point
    to, and nothing else; otherwise the listing is empty and comes with the
    error of opening the path, or of reading what is no directory. *)
Theorem listSymDir_listing (dir : string) (w : World) :
  match os.stat w dir with
  | inl e => listSymDir dir w = (Done ([], Some (PathError "open" dir e)), w)
  | inr (d, Directory) =>
      exists files, listSymDir dir w = (Done (files, None), w) /\
        StronglySorted ioutil.byName files /\
        forall f, f ∈ files <->
          exists k t, w_files w !! k = Some (Symlink t) /\ k ≠ d /\ path.Dir k = d /\
                      f = os.fileInfo (path.Base k) (Symlink t)
  | inr _ => listSymDir dir w = (Done ([], Some (PathError "readdirent" dir ENOTDIR)), w)
  end.
Proof.
  pose proof (listSymDir_eq dir w) as Heq.
  destruct (os.stat w dir) as [e|[d [| |t]]] eqn:Hstat; try done.
  eexists. split; [exact Heq|].
  destruct (listSymDir_ok _ _ _ _ Heq) as (_ & d' & Hd' & Hsorted & Hmem).
  rewrite Hstat in Hd'. by injection Hd' as <-.
Qed.

(** ** The whole program *)

(** X13: once the flags are parsed and valid, [main] fails with "error
    getting config path" and status 1, no handler run, when [configPath]
    fails; otherwise it runs the handler on the store path, and ends with
    status 0 when the handler returns [nil], and with the line "error
    handling request: <error>" and status 1 when it returns an error, the
    world being as the handler left it. *)
Theorem main_outcome (w w1 : World) (c : Config) (cp : string) :
  Flags zeroConfig w = (Done c, w) ->
  Validate c = true ->
  (forall e, configPath w = (Done (cp, Some e), w1) ->
     main w = (Exit 1, set_stdout (w_stdout w1 +:+ "error getting config path: " +:+
                                   Error e +:+ LF) w1)) /\
  (forall args err w2,
     configPath w = (Done (cp, None), w1) ->
     Args c w1 = (Done args, w1) ->
     Handler c cp args w1 = (Done err, w2) ->
     main w =
       match err with
       | None => (Done (), w2)
       | Some e => (Exit 1, set_stdout (w_stdout w2 +:+ "error handling request: " +:+
                                        Error e +:+ LF) w2)
       end).
Proof.
  intros HF HV. split.
  - intros e Hcp. unfold main. run HF. rewrite HV. cbn [negb]. run Hcp. reflexivity.
  - intros args err w2 Hcp Hargs Hrun. unfold main. run HF. rewrite HV. cbn [negb].
    run Hcp. cbv zeta. run Hargs. run Hrun. by destruct err.
Qed.

Lemma main_outcome_witness :
  Flags zeroConfig (bob ["4"]) = (Done (withSet true zeroConfig), bob ["4"]) /\
  Validate (withSet true zeroConfig) = true /\
  main (bob ["4"]) =
    (Exit 1,
     set_stdout (w_stdout (bob ["4"]) +:+ "error handling request: " +:+
                 Error (errorString "index out of range") +:+ LF) (bob ["4"])).
Proof.
  split; [vm_compute; reflexivity|]. split; [reflexivity|].
  apply (proj2 (main_outcome (bob ["4"]) (bob ["4"]) (withSet true zeroConfig)
                  "/home/bob/.kconf" ltac:(vm_compute; reflexivity) eq_refl)
           ["4"] (Some (errorString "index out of range")) (bob ["4"]));
    vm_compute; reflexivity.
Defined.

Lemma bind_exit {A B} (m : Go A) (k : A -> Go B) (w w' : World) (code : Z) :
  m w = (Exit code, w') -> (m ≫= k) w = (Exit code, w').
Proof. intros H. unfold mbind, Go_bind. by rewrite H. Qed.

(** [parse] refuses a command line with status 0, for help, or 2. *)
Lemma parse_code (arguments : list string) (f : flag.FlagSet) (code : Z) :
  flag.parse f arguments = inl code -> code = 0 \/ code = 2.
Proof.
  revert f. induction arguments as [|s rest IH]; intros f; [done|].
  cbn [flag.parse]. destruct (flag.classify s) as [name v| | |]; try done.
  - destruct (f !! name).
    + destruct v as [str|]; [|by apply IH].
      destruct (strconv.ParseBool str); [by apply IH|]. intros [= <-]. by right.
    + destruct (_ || _); intros [= <-]; auto.
  - intros [= <-]. by right.
Qed.

(** [Config.Flags] returns or exits as [parse] accepts or refuses. *)
Lemma Flags_cases (w : World) (prog : string) (rest : list string) :
  w_args w = prog :: rest ->
  match flag.parse kconfFlags rest with
  | inl code => Flags zeroConfig w = (Exit code, w)
  | inr _ => exists c, Flags zeroConfig w = (Done c, w)
  end.
Proof.
  intros Hargs. destruct (flag.parse kconfFlags rest) as [code|[f left]] eqn:Hparse.
  - unfold Flags. fold kconfFlags. apply bind_exit.
    unfold flag.Parse, mbind, Go_bind, os.Args, sliceFrom. rewrite Hargs.
    rewrite bool_decide_eq_true_2 by (cbn [length]; lia).
    change (drop (Z.to_nat 1) (prog :: rest)) with rest.
    unfold mret, Go_ret. by rewrite Hparse.
  - by eapply Flags_run.
Qed.

(** [Config.Args] returns after [Config.Flags] has. *)
Lemma Args_done (w w' : World) (c : Config) :
  Flags zeroConfig w = (Done c, w') -> exists args, Args c w' = (Done args, w').
Proof.
  intros HF.
  apply Flags_done in HF as (-> & prog & rest & f & left & Hargs & Hparse & Hbits & _).
  unfold Args, mbind, Go_bind, os.Args, sliceFrom. rewrite Hargs.
  case_bool_decide as Hops.
  - rewrite bool_decide_eq_true_2 by (cbn [length]; lia). by eexists.
  - destruct rest as [|first args].
    { injection Hparse as <- <-. by destruct Hops. }
    rewrite bool_decide_eq_true_2 by (cbn [length]; lia). by eexists.
Qed.

Lemma Handler_cases (c : Config) :
  Handler c = addKubeconfig \/ Handler c = setKubeconfig \/ Handler c = listKubeconfigs \/
  Handler c = removeKubeconfig \/ Handler c = noop.
Proof. unfold Handler. destruct (Add c), (Set_ c), (List_ c), (Remove c); auto 10. Qed.

Lemma listKubeconfigs_returns (configPath : string) (args : list string) (w : World) :
  exists err w', listKubeconfigs configPath args w = (Done err, w').
Proof.
  destruct (listSymDir_reads configPath w) as [[files [e|]] Hlist];
    unfold listKubeconfigs; run Hlist; [by eexists _, _|].
  unfold mbind at 1, Go_bind at 1. cbn [os.Getenv].
  unfold mbind, Go_bind. rewrite listKubeconfigs_loop. by eexists _, _.
Qed.

Lemma configPath_returns (w : World) :
  exists cp err w', configPath w = (Done (cp, err), w') /\ w_args w' = w_args w.
Proof.
  pose proof (configPath_cases w) as H. destruct (storePath w) as [cp|].
  - destruct H as (err & w' & H & [->|(k & _ & _ & _ & ->)] & _); by eexists _, _, _.
  - by eexists _, _, _.
Qed.

(** [Config.Args] reads the command line only. *)
Lemma Args_reads (c : Config) (w w1 : World) (args : list string) :
  w_args w1 = w_args w -> Args c w = (Done args, w) -> Args c w1 = (Done args, w1).
Proof.
  unfold Args, mbind, Go_bind, os.Args, sliceFrom. intros ->.
  destruct (bool_decide (Ops c = 0)); case_bool_decide; by intros [= <-].
Qed.

(** X16: on a command line that flag parsing refuses, [main] exits with
    the status of the parser, 0 after a request for help and 2 otherwise,
    before anything is read from or written to the world. *)
Theorem main_flags_refused (w : World) (prog : string) (rest : list string) (code : Z) :
  w_args w = prog :: rest ->
  flag.parse kconfFlags rest = inl code ->
  main w = (Exit code, w) /\ (code = 0 \/ code = 2).
Proof.
  intros Hargs Hparse. split; [|by eapply parse_code].
  pose proof (Flags_cases w prog rest Hargs) as HF. rewrite Hparse in HF.
  unfold main. by apply bind_exit.
Qed.

Lemma main_flags_refused_witness :
  main (bob ["-x"; "my"]) = (Exit 2, bob ["-x"; "my"]) /\ (2 = 0 \/ 2 = 2).
Proof.
  apply (main_flags_refused (bob ["-x"; "my"]) "kconf" ["-x"; "my"] 2); vm_compute; reflexivity.
Defined.

(** X17: [main] ends in a run-time panic only inside the handler of Set or
    of Remove, after the flags were parsed and found valid and the store path
    was found: parsing, validation, [configPath], List, Add and the handler
    that does nothing never panic. *)
Theorem main_panics_only_resolving (w w' : World) (p : panic) :
  w_args w ≠ [] ->
  main w = (Panic p, w') ->
  exists c cp args w1,
    Flags zeroConfig w = (Done c, w) /\ Validate c = true /\
    configPath w = (Done (cp, None), w1) /\ Args c w1 = (Done args, w1) /\
    (Handler c = setKubeconfig \/ Handler c = removeKubeconfig) /\
    Handler c cp args w1 = (Panic p, w').
Proof.
  intros Hne Hmain. destruct (w_args w) as [|prog rest] eqn:Hargs; [done|]. clear Hne.
  pose proof (Flags_cases w prog rest Hargs) as HF.
  destruct (flag.parse kconfFlags rest) as [code|_].
  { unfold main in Hmain. by rewrite (bind_exit _ _ _ _ _ HF) in Hmain. }
  destruct HF as [c HF]. unfold main in Hmain. rewrite (bind_done _ _ _ _ _ HF) in Hmain.
  destruct (Validate c) eqn:HV; cbn [negb] in Hmain; [|done].
  destruct (configPath_returns w) as (cp & err & w1 & Hcp & Hsame).
  rewrite (bind_done _ _ _ _ _ Hcp) in Hmain.
  destruct err as [e|]; [done|]. cbv zeta in Hmain.
  assert (exists args, Args c w1 = (Done args, w1)) as [args HA].
  { destruct (Args_done _ _ _ HF) as [args HA]. exists args. by eapply Args_reads. }
  rewrite (bind_done _ _ _ _ _ HA) in Hmain.
  destruct (Handler c cp args w1) as [[err|p'|code] w2] eqn:Hh.
  - rewrite (bind_done _ _ _ _ _ Hh) in Hmain. by destruct err.
  - rewrite (bind_panic _ _ _ _ _ Hh) in Hmain. injection Hmain as <- <-.
    exists c, cp, args, w1. repeat (split; [done|]). split; [|done].
    destruct (Handler_cases c) as [H|[H|[H|[H|H]]]]; auto; rewrite H in Hh.
    + destruct (addKubeconfig_returns cp args w1) as (? & ? & H' & _). by rewrite H' in Hh.
    + destruct (listKubeconfigs_returns cp args w1) as (? & ? & H'). by rewrite H' in Hh.
    + done.
  - by rewrite (bind_exit _ _ _ _ _ Hh) in Hmain.
Qed.

Lemma main_panics_only_resolving_witness :
  main (bob ["0"]) = (Panic (IndexOutOfRange (-1) 3), bob ["0"]) /\
  exists c cp args w1,
    Flags zeroConfig (bob ["0"]) = (Done c, bob ["0"]) /\ Validate c = true /\
    configPath (bob ["0"]) = (Done (cp, None), w1) /\ Args c w1 = (Done args, w1) /\
    (Handler c = setKubeconfig \/ Handler c = removeKubeconfig) /\
    Handler c cp args w1 = (Panic (IndexOutOfRange (-1) 3), bob ["0"]).
Proof.
  split; [vm_compute; reflexivity|].
  apply (main_panics_only_resolving (bob ["0"])); [done | vm_compute; reflexivity].
Defined.
